(** * pyinspect: the inspection engine of [network_inspector.py]

    A shallow embedding of [NetworkInspector.inspect_device],
    [NetworkInspector._get_inspection_commands] and
    [NetworkInspector.run_inspection], and the properties of the
    specification checked against it.

    Python objects that the code mutates ([device_config], [result]) live in
    an explicit heap of dictionaries, so that aliasing between the caller's
    descriptor and the copy handed to Netmiko is visible.  The Netmiko calls
    ([ConnectHandler], [find_prompt], [send_command_timing], [disconnect])
    are an interface of the development: they act on an abstract world and
    either return or raise.  Every call that is made is appended to a ghost
    trace, which is what the call-counting properties are stated on.
    [print] calls are progress notices and are left out. *)

From stdpp Require Import gmap strings list fin_maps pretty.

Open Scope string_scope.
Open Scope list_scope.

(** ** Python values

    Descriptors and command sets are loaded with [json.load]; the values
    found in them are scalars and lists of command strings.  Strings are
    UTF-8 byte strings. *)

Inductive pyval :=
| VNone
| VBool (b : bool)
| VInt (n : Z)
| VStr (s : string)
| VList (l : list string).

Abbreviation Dict := (gmap string pyval).

(** Truth value of an object, as tested by [and] and [if]. *)
Definition py_truthy (v : pyval) : bool :=
  match v with
  | VNone => false
  | VBool b => b
  | VInt n => negb (n =? 0)%Z
  | VStr s => negb (String.eqb s "")
  | VList l => match l with [] => false | _ :: _ => true end
  end.

(** Only lists are unhashable among these values. *)
Definition py_hashable (v : pyval) : bool :=
  match v with VList _ => false | _ => true end.

(** ** Exceptions

    The three [except] clauses of the connection loop tell Netmiko's two
    exception classes from every other [Exception]; [exn_str] is [str(e)]. *)

Inductive exn_class :=
| NetMikoAuthenticationException
| NetMikoTimeoutException
| OtherException.

Record exn := Exn { exn_cls : exn_class; exn_str : string }.

Definition TypeError (msg : string) : exn := Exn OtherException msg.
Definition KeyError (key : string) : exn := Exn OtherException ("'" +:+ key +:+ "'").

Definition nl : string := String (Ascii.ascii_of_nat 10) EmptyString.

(** [s.rstrip(chars)]: drop the longest suffix made of characters of
    [chars].  The characters stripped by the code are ASCII, so working on
    bytes agrees with working on code points. *)
Definition in_chars (c : Ascii.ascii) (chars : string) : bool :=
  existsb (Ascii.eqb c) (String.list_ascii_of_string chars).

Fixpoint rstrip (s : string) (chars : string) : string :=
  match s with
  | EmptyString => EmptyString
  | String c rest =>
      match rstrip rest chars with
      | EmptyString => if in_chars c chars then EmptyString else String c EmptyString
      | r => String c r
      end
  end.

(** Iterating a value in a [for] statement. *)
Definition py_iter (v : pyval) : list string + exn :=
  match v with
  | VList l => inl l
  | VStr s => inl ((fun c => String c EmptyString) <$> String.list_ascii_of_string s)
  | VNone => inr (TypeError "'NoneType' object is not iterable")
  | VBool _ => inr (TypeError "'bool' object is not iterable")
  | VInt _ => inr (TypeError "'int' object is not iterable")
  end.

(** [key in d] and [d[key]] and [d.get(key, dflt)] for a dictionary with
    string keys and an arbitrary key object: hashing comes first. *)
Definition py_contains (d : Dict) (key : pyval) : bool + exn :=
  match key with
  | VList _ => inr (TypeError "unhashable type: 'list'")
  | VStr k => inl (bool_decide (is_Some (d !! k)))
  | _ => inl false
  end.

Definition py_getitem (d : Dict) (key : pyval) : pyval + exn :=
  match key with
  | VList _ => inr (TypeError "unhashable type: 'list'")
  | VStr k => match d !! k with Some v => inl v | None => inr (KeyError k) end
  | VNone => inr (Exn OtherException "None")
  | VBool b => inr (Exn OtherException (if b then "True" else "False"))
  | VInt n => inr (Exn OtherException (pretty n))
  end.

Definition py_get_default (d : Dict) (key : pyval) (dflt : pyval) : pyval + exn :=
  match key with
  | VList _ => inr (TypeError "unhashable type: 'list'")
  | VStr k => inl (default dflt (d !! k))
  | _ => inl dflt
  end.

(** ** The session provider (Netmiko) *)

Class SessionProvider (World Conn : Type) := {
  ConnectHandler : Dict -> World -> (Conn + exn) * World;
  find_prompt : Conn -> World -> (string + exn) * World;
  (* send_command_timing(cmd, read_timeout, strip_prompt, strip_command) *)
  send_command_timing :
    Conn -> string -> Z -> bool -> bool -> World -> (string + exn) * World;
  disconnect : Conn -> World -> (unit + exn) * World
}.

(** Calls made to the provider, with what they gave back. *)
Inductive event (Conn : Type) :=
| EvConnectHandler (kwargs : Dict) (r : Conn + exn)
| EvFindPrompt (c : Conn) (r : string + exn)
| EvSendCommandTiming (c : Conn) (cmd : string) (r : string + exn)
| EvDisconnect (c : Conn) (r : unit + exn).
Arguments EvConnectHandler {Conn}.
Arguments EvFindPrompt {Conn}.
Arguments EvSendCommandTiming {Conn}.
Arguments EvDisconnect {Conn}.

Abbreviation loc := nat (only parsing).

(** The state threaded through the program: the outside world, the ghost
    trace and the heap of dictionary objects, addressed by position. *)
Record St (World Conn : Type) := MkSt {
  world : World;
  trace : list (event Conn);
  heap : list Dict
}.
Arguments MkSt {World Conn}.
Arguments world {World Conn}.
Arguments trace {World Conn}.
Arguments heap {World Conn}.

(** [self]: the external command sets and the device inventory. *)
Record NetworkInspector := {
  commands : Dict;
  devices : list loc
}.

(** The built-in table of [_get_inspection_commands]. *)
Definition commands_map : Dict :=
  list_to_map [
    ("cisco_ios", VList [
        "show version";
        "show ip interface brief";
        "show vlan brief";
        "show spanning-tree summary";
        "show arp";
        "show processes cpu";
        "show memory statistics"]);
    ("cisco_xe", VList [
        "show version";
        "show ip interface brief";
        "show vlan brief";
        "show spanning-tree summary";
        "show arp";
        "show processes cpu";
        "show memory statistics"]);
    ("cisco_nxos", VList [
        "show version";
        "show interface brief";
        "show vlan brief";
        "show spanning-tree detail";
        "show ip arp";
        "show processes cpu";
        "show processes memory"]);
    ("huawei", VList [
        "display version";
        "display ip interface brief";
        "display vlan";
        "display stp brief";
        "display arp";
        "display cpu-usage";
        "display memory-usage"]);
    ("h3c", VList [
        "display version";
        "display ip interface brief";
        "display vlan";
        "display stp brief";
        "display arp";
        "display cpu-usage";
        "display memory"]);
    ("juniper", VList [
        "show version";
        "show interfaces terse";
        "show vlans";
        "show spanning-tree bridge";
        "show arp";
        "show chassis alarms";
        "show system processes summary"])
  ].

(** ** [_get_inspection_commands]

    The method only reads [self.commands] and the descriptor, so it is a
    function of the two dictionaries; it raises when the platform is not
    hashable. *)
Definition _get_inspection_commands (self : NetworkInspector) (device : Dict)
    : pyval + exn :=
  if bool_decide (is_Some (device !! "commands"))
     && py_truthy (default VNone (device !! "commands"))
  then inl (default VNone (device !! "commands"))
  else
    let device_type := default VNone (device !! "device_type") in
    match
      (if negb (bool_decide (commands self = ∅))
       then py_contains (commands self) device_type
       else inl false)
    with
    | inr e => inr e
    | inl true => py_getitem (commands self) device_type
    | inl false =>
        py_get_default commands_map device_type (VList ["show version"])
    end.

(** ** The program monad: state, with exceptions that keep the state *)

Section Engine.
Context {World Conn : Type} `{!SessionProvider World Conn}.

Definition M (A : Type) : Type :=
  St World Conn -> (A + exn) * St World Conn.

Definition ret {A} (a : A) : M A := fun s => (inl a, s).

Definition raise {A} (e : exn) : M A := fun s => (inr e, s).

Definition lift {A} (r : A + exn) : M A := fun s => (r, s).

Definition bind {A B} (m : M A) (k : A -> M B) : M B :=
  fun s =>
    match m s with
    | (inl a, s') => k a s'
    | (inr e, s') => (inr e, s')
    end.

(** [try: m except Exception as e: h e] *)
Definition try_except {A} (m : M A) (h : exn -> M A) : M A :=
  fun s =>
    match m s with
    | (inl a, s') => (inl a, s')
    | (inr e, s') => h e s'
    end.

(** [try: m finally: f] *)
Definition try_finally {A} (m : M A) (f : M unit) : M A :=
  fun s =>
    match m s with
    | (r, s') =>
        match f s' with
        | (inl _, s'') => (r, s'')
        | (inr e, s'') => (inr e, s'')
        end
    end.

Notation "'let!' x ':=' m 'in' k" := (bind m (fun x => k))
  (at level 10, x name, m at level 100, k at level 200).

(** *** Dictionary objects on the heap *)

(** [{...}]: a new dictionary object. *)
Definition new_dict (d : Dict) : M loc :=
  fun s => (inl (length (heap s)),
            MkSt (world s) (trace s) (heap s ++ [d])).

(** [d.copy()]: a new object with the same items. *)
Definition dict_copy (d : loc) : M loc :=
  fun s => new_dict (heap s !!! d) s.

(** [d.get(key)] *)
Definition dict_get (d : loc) (key : string) : M pyval :=
  fun s => (inl (default VNone ((heap s !!! d) !! key)), s).

(** [key in d] *)
Definition dict_in (key : string) (d : loc) : M bool :=
  fun s => (inl (bool_decide (is_Some ((heap s !!! d) !! key))), s).

(** [d[key]] *)
Definition dict_getitem (d : loc) (key : string) : M pyval :=
  fun s =>
    (match (heap s !!! d) !! key with
     | Some v => inl v
     | None => inr (KeyError key)
     end, s).

(** [d[key] = v] *)
Definition dict_setitem (d : loc) (key : string) (v : pyval) : M unit :=
  fun s => (inl tt,
            MkSt (world s) (trace s)
                 (<[d := <[key := v]> (heap s !!! d)]> (heap s))).

(** [d.pop(key, None)], the popped value being dropped *)
Definition dict_pop (d : loc) (key : string) : M unit :=
  fun s => (inl tt,
            MkSt (world s) (trace s)
                 (<[d := delete key (heap s !!! d)]> (heap s))).

(** *** Calls to the provider, logged *)

(** [ConnectHandler] applied to the items of [device_config] as keyword
    arguments *)
Definition call_ConnectHandler (device_config : loc) : M Conn :=
  fun s =>
    let kwargs := heap s !!! device_config in
    let rw := ConnectHandler kwargs (world s) in
    (rw.1, MkSt rw.2 (trace s ++ [EvConnectHandler kwargs rw.1]) (heap s)).

Definition call_find_prompt (connection : Conn) : M string :=
  fun s =>
    let rw := find_prompt connection (world s) in
    (rw.1, MkSt rw.2 (trace s ++ [EvFindPrompt connection rw.1]) (heap s)).

Definition call_send_command_timing (connection : Conn) (cmd : string)
    (read_timeout : Z) (strip_prompt strip_command : bool) : M string :=
  fun s =>
    let rw := send_command_timing connection cmd read_timeout
                strip_prompt strip_command (world s) in
    (rw.1, MkSt rw.2 (trace s ++ [EvSendCommandTiming connection cmd rw.1])
                (heap s)).

Definition call_disconnect (connection : Conn) : M unit :=
  fun s =>
    let rw := disconnect connection (world s) in
    (rw.1, MkSt rw.2 (trace s ++ [EvDisconnect connection rw.1]) (heap s)).

(** [d] itself, read through the reference *)
Definition load (d : loc) : M Dict :=
  fun s => (inl (heap s !!! d), s).

(** ** [inspect_device] *)

(** ["主密码" if i == 0 else "备用密码"] *)
Definition password_type (i : nat) : string :=
  if (i =? 0)%nat then "主密码" else "备用密码".

(** How one round of the connection loop ends. *)
Inductive ctl :=
| Break (connection : Conn) (password_used : pyval)
| Continue
| Return (r : loc).

(** What the code after the loop sees. *)
Inductive after_loop :=
| Fell (connection : option Conn) (password_used : pyval)
| Returned (r : loc).

(** [for i, password in enumerate(passwords): ...] with the locals
    [connection] and [password_used] it reads and writes. *)
Fixpoint connect_loop (result device_config : loc) (i : nat)
    (passwords : list pyval) (connection : option Conn)
    (password_used : pyval) : M after_loop :=
  match passwords with
  | [] => ret (Fell connection password_used)
  | password :: rest =>
      let! c :=
        try_except
          (let! _ := dict_setitem device_config "password" password in
           let! conn := call_ConnectHandler device_config in
           ret (Break conn (VStr (password_type i))))
          (fun e =>
             match exn_cls e with
             | NetMikoAuthenticationException => ret Continue
             | NetMikoTimeoutException =>
                 let! _ := dict_setitem result "output" (VStr "连接超时") in
                 let! _ := dict_setitem result "password_used" password_used in
                 ret (Return result)
             | OtherException =>
                 let! _ := dict_setitem result "output"
                             (VStr ("发生错误: " +:+ exn_str e)) in
                 let! _ := dict_setitem result "password_used" password_used in
                 ret (Return result)
             end) in
      match c with
      | Break conn pu => ret (Fell (Some conn) pu)
      | Continue =>
          connect_loop result device_config (S i) rest connection password_used
      | Return r => ret (Returned r)
      end
  end.

(** [x or ''] on strings *)
Definition or_empty (x : string) : string :=
  if py_truthy (VStr x) then x else "".

(** [for cmd in commands: ...] with the accumulator [output]. *)
Fixpoint run_commands (connection : Conn) (cmds : list string)
    (output : string) : M string :=
  match cmds with
  | [] => ret output
  | cmd :: rest =>
      let output := output +:+ (nl +:+ "--- Command: " +:+ cmd +:+ " ---" +:+ nl) in
      let! output :=
        try_except
          (let! cmd_output :=
             call_send_command_timing connection cmd 30 false true in
           ret (output +:+ or_empty cmd_output))
          (fun e =>
             ret (output +:+ ("命令 '" +:+ cmd +:+ "' 执行失败: "
                              +:+ exn_str e +:+ nl))) in
      run_commands connection rest output
  end.

(** The [try] block of lines 144-171, its [except Exception] handler and
    its [finally] block. *)
Definition try_block (self : NetworkInspector) (device result : loc)
    (connection : Conn) (password_used : pyval) : M unit :=
  let! prompt := call_find_prompt connection in
  let hostname := rstrip prompt "#>$ " in
  let! _ := dict_setitem result "hostname" (VStr hostname) in
  let! _ := dict_setitem result "password_used" password_used in
  let! d := load device in
  let! commands := lift (_get_inspection_commands self d) in
  let output := "" in
  let! cmds := lift (py_iter commands) in
  let! output := run_commands connection cmds output in
  let! _ := dict_setitem result "status" (VStr "success") in
  dict_setitem result "output" (VStr output).

Definition except_block (result : loc) (password_used : pyval) (e : exn)
    : M unit :=
  let! _ := dict_setitem result "output"
              (VStr ("执行命令时发生错误: " +:+ exn_str e)) in
  dict_setitem result "password_used" password_used.

Definition finally_block (connection : Conn) : M unit :=
  try_except (call_disconnect connection) (fun _ => ret tt).

Definition inspect_device (self : NetworkInspector) (device : loc) : M loc :=
  let! host := dict_get device "host" in
  let! host' := dict_get device "host" in
  let! dtype := dict_get device "device_type" in
  let! result := new_dict (list_to_map [
      ("hostname", host);
      ("ip_address", host');
      ("device_type", dtype);
      ("status", VStr "failed");
      ("output", VStr "");
      ("password_used", VNone)]) in
  let! device_config := dict_copy device in
  let! password := dict_get device "password" in
  let passwords := [password] in
  let! has := dict_in "backup_password" device in
  let! backup :=
    (if has : bool
     then let! v := dict_getitem device "backup_password" in ret (py_truthy v)
     else ret false) in
  let! passwords :=
    (if backup : bool
     then let! v := dict_getitem device "backup_password" in
          ret (passwords ++ [v])%list
     else ret passwords) in
  let! _ := dict_pop device_config "backup_password" in
  let! _ := dict_pop device_config "commands" in
  let connection := None in
  let password_used := VNone in
  let! fl := connect_loop result device_config 0 passwords
               connection password_used in
  match fl with
  | Returned r => ret r
  | Fell None password_used =>
      let! _ := dict_setitem result "output"
                  (VStr "认证失败：所有密码尝试均失败") in
      let! _ := dict_setitem result "password_used" password_used in
      ret result
  | Fell (Some connection) password_used =>
      let! _ :=
        try_finally
          (try_except
             (try_block self device result connection password_used)
             (except_block result password_used))
          (finally_block connection) in
      ret result
  end.

(** ** [run_inspection]

    The subscripts in the closing [print] of each round are kept: they
    raise when the key is missing. *)
Fixpoint run_inspection_loop (self : NetworkInspector) (devs : list loc)
    (results : list loc) : M (list loc) :=
  match devs with
  | [] => ret results
  | device :: rest =>
      let! result := inspect_device self device in
      let results := (results ++ [result])%list in
      let! _ := dict_getitem result "hostname" in
      let! _ := dict_getitem result "status" in
      run_inspection_loop self rest results
  end.

Definition run_inspection (self : NetworkInspector) : M (list loc) :=
  run_inspection_loop self (devices self) [].

End Engine.

(** ** A scripted provider

    A provider whose answers are read off the arguments, used to run the
    engine on concrete inventories.  The world counts the calls made.
    The password decides how [ConnectHandler] ends; the connection handle
    is the host name; the handle and the command decide the rest. *)

Definition scripted_connect (kwargs : Dict) (w : nat) : (string + exn) * nat :=
  (match kwargs !! "password" with
   | Some (VStr "good") =>
       match kwargs !! "host" with
       | Some (VStr h) => inl h
       | _ => inr (Exn OtherException "missing host")
       end
   | Some (VStr "slow") => inr (Exn NetMikoTimeoutException "timed out")
   | Some (VStr "odd") => inr (Exn OtherException "boom")
   | _ => inr (Exn NetMikoAuthenticationException "denied")
   end, S w).

Definition scripted_prompt (c : string) (w : nat) : (string + exn) * nat :=
  (if String.eqb c "mute" then inr (Exn OtherException "no prompt")
   else inl (c +:+ "# "), S w).

Definition scripted_send (c cmd : string) (read_timeout : Z)
    (strip_prompt strip_command : bool) (w : nat) : (string + exn) * nat :=
  (if String.eqb cmd "bad" then inr (Exn OtherException "rejected")
   else inl ("ok " +:+ cmd), S w).

Definition scripted_disconnect (c : string) (w : nat) : (unit + exn) * nat :=
  (if String.eqb c "sticky" then inr (Exn OtherException "stuck")
   else inl tt, S w).

#[export] Instance scripted : SessionProvider nat string := {
  ConnectHandler := scripted_connect;
  find_prompt := scripted_prompt;
  send_command_timing := scripted_send;
  disconnect := scripted_disconnect
}.

Definition no_commands : NetworkInspector :=
  {| commands := ∅; devices := [0; 1; 2] |}.

(** Opens at once; its second command fails. *)
Definition router1 : Dict :=
  list_to_map [
    ("host", VStr "r1"); ("device_type", VStr "cisco_ios");
    ("password", VStr "good");
    ("commands", VList ["show version"; "bad"; "show arp"])].

(** Primary turned down, backup timing out. *)
Definition router2 : Dict :=
  list_to_map [
    ("host", VStr "r2"); ("device_type", VStr "huawei");
    ("password", VStr "wrong"); ("backup_password", VStr "slow")].

(** Primary turned down, backup empty. *)
Definition router3 : Dict :=
  list_to_map [
    ("host", VStr "r3"); ("device_type", VStr "juniper");
    ("password", VStr "wrong"); ("backup_password", VStr "")].

Definition boot : St nat string := MkSt 0 [] [router1; router2; router3].

(** An inspector with an external set for [cisco_ios], and a descriptor
    with an override for which the external and the built-in sets exist. *)
Definition with_commands : NetworkInspector :=
  {| commands := {["cisco_ios" := VList ["show clock"]]}; devices := [] |}.

Definition overriding : Dict :=
  list_to_map [
    ("host", VStr "10.0.0.1"); ("device_type", VStr "cisco_ios");
    ("password", VStr "p1"); ("commands", VList ["cmdA"])].

(** ** Vocabulary of the properties *)

(** What a caller can observe of a call returning an object: the provider
    calls it made, and the object returned as it is in the final heap.
    [None] when the call raised. *)
Definition observe {World Conn} (m : St World Conn -> (loc + exn) * St World Conn)
    (s : St World Conn) : option (list (event Conn) * Dict) :=
  match m s with
  | (inl r, s') => Some (drop (length (trace s)) (trace s'), heap s' !!! r)
  | (inr _, _) => None
  end.

Definition is_connect {Conn} (ev : event Conn) : bool :=
  match ev with EvConnectHandler _ _ => true | _ => false end.

Definition is_send {Conn} (ev : event Conn) : bool :=
  match ev with EvSendCommandTiming _ _ _ => true | _ => false end.

Definition is_disconnect {Conn} (ev : event Conn) : bool :=
  match ev with EvDisconnect _ _ => true | _ => false end.

(** A session was opened. *)
Definition is_opened {Conn} (ev : event Conn) : bool :=
  match ev with EvConnectHandler _ (inl _) => true | _ => false end.

(** A credential was turned down: [NetMikoAuthenticationException]. *)
Definition is_rejected {Conn} (ev : event Conn) : bool :=
  match ev with
  | EvConnectHandler _ (inr (Exn NetMikoAuthenticationException _)) => true
  | _ => false
  end.

Definition calls {Conn} (p : event Conn -> bool) (evs : list (event Conn)) : nat :=
  length (filter (fun ev => p ev = true) evs).

(** The candidate credentials of a descriptor: primary, then the backup
    when there is one and it is not empty. *)
Definition candidate_passwords (device : Dict) : list pyval :=
  default VNone (device !! "password") ::
  match device !! "backup_password" with
  | Some v => if py_truthy v then [v] else []
  | None => []
  end.

(** The keyword arguments of an attempt: the descriptor without its
    [backup_password] and [commands], and with the candidate password. *)
Definition connect_kwargs (device : Dict) (password : pyval) : Dict :=
  <["password" := password]> (delete "commands" (delete "backup_password" device)).

(** The keyword arguments of the first attempt. *)
Definition primary_kwargs (device : Dict) : Dict :=
  connect_kwargs device (default VNone (device !! "password")).

(** The result dictionary as created at line 87. *)
Definition fresh_result (device : Dict) : Dict :=
  list_to_map [
    ("hostname", default VNone (device !! "host"));
    ("ip_address", default VNone (device !! "host"));
    ("device_type", default VNone (device !! "device_type"));
    ("status", VStr "failed");
    ("output", VStr "");
    ("password_used", VNone)].

(** The text reported for a connection that ended in [e]. *)
Definition connect_failure (e : exn) : string :=
  match exn_cls e with
  | NetMikoTimeoutException => "连接超时"
  | _ => "发生错误: " +:+ exn_str e
  end.

Definition AuthExhausted : string := "认证失败：所有密码尝试均失败".

(** The section of the transcript that one command leaves. *)
Definition entry (cmd : string) (r : string + exn) : string :=
  (nl +:+ "--- Command: " +:+ cmd +:+ " ---" +:+ nl) +:+
  match r with
  | inl cmd_output => or_empty cmd_output
  | inr e => "命令 '" +:+ cmd +:+ "' 执行失败: " +:+ exn_str e +:+ nl
  end.

Fixpoint transcript {Conn} (evs : list (event Conn)) : string :=
  match evs with
  | [] => ""
  | EvSendCommandTiming _ cmd r :: rest => entry cmd r +:+ transcript rest
  | _ :: rest => transcript rest
  end.

(** The commands passed to [send_command_timing], in call order. *)
Definition sent_commands {Conn} (evs : list (event Conn)) : list string :=
  omap (fun ev => match ev with
                  | EvSendCommandTiming _ cmd _ => Some cmd
                  | _ => None
                  end) evs.

(** The last character of a string. *)
Fixpoint last_char (s : string) : option Ascii.ascii :=
  match s with
  | EmptyString => None
  | String c EmptyString => Some c
  | String _ rest => last_char rest
  end.

(** The precedence rule of the command resolution, level by level: the
    descriptor's own list when it is not empty, else the external set of
    the platform, else the built-in set of the platform, else the generic
    version query. *)
Definition resolve_by_precedence (self : NetworkInspector) (device : Dict)
    : pyval :=
  match device !! "commands" with
  | Some (VList (cmd :: cmds)) => VList (cmd :: cmds)
  | _ =>
      match device !! "device_type" with
      | Some (VStr platform) =>
          match commands self !! platform with
          | Some external => external
          | None =>
              match commands_map !! platform with
              | Some builtin => builtin
              | None => VList ["show version"]
              end
          end
      | _ => VList ["show version"]
      end
  end.

(** How the attempts on a list of candidates can go, as a list of provider
    calls, and how they end. *)
Inductive attempt_end (Conn : Type) :=
| Exhausted
| Opened (k : nat) (c : Conn)
| Aborted (k : nat) (e : exn).
Arguments Exhausted {Conn}.
Arguments Opened {Conn}.
Arguments Aborted {Conn}.

Definition later {Conn} (r : attempt_end Conn) : attempt_end Conn :=
  match r with
  | Exhausted => Exhausted
  | Opened k c => Opened (S k) c
  | Aborted k e => Aborted (S k) e
  end.

Inductive attempts {Conn} (cfg : Dict)
  : list pyval -> list (event Conn) -> attempt_end Conn -> Prop :=
| attempts_nil : attempts cfg [] [] Exhausted
| attempts_open pw pws c :
    attempts cfg (pw :: pws)
      [EvConnectHandler (<["password" := pw]> cfg) (inl c)] (Opened 0 c)
| attempts_abort pw pws e :
    exn_cls e <> NetMikoAuthenticationException ->
    attempts cfg (pw :: pws)
      [EvConnectHandler (<["password" := pw]> cfg) (inr e)] (Aborted 0 e)
| attempts_reject pw pws e evs r :
    exn_cls e = NetMikoAuthenticationException ->
    attempts cfg pws evs r ->
    attempts cfg (pw :: pws)
      (EvConnectHandler (<["password" := pw]> cfg) (inr e) :: evs) (later r).

(** The calls of a session and the result dictionary they leave. *)
Definition resolved (self : NetworkInspector) (device : Dict) : list string + exn :=
  match _get_inspection_commands self device with
  | inl v => py_iter v
  | inr e => inr e
  end.

Definition escaped (e : exn) : string := "执行命令时发生错误: " +:+ exn_str e.

Inductive session {Conn} (self : NetworkInspector) (device : Dict) (c : Conn)
    (pu : pyval) (rd : Dict) : list (event Conn) -> Dict -> Prop :=
| session_no_prompt e closed :
    session self device c pu rd
      [EvFindPrompt c (inr e); EvDisconnect c closed]
      (<["password_used" := pu]> (<["output" := VStr (escaped e)]> rd))
| session_unresolved prompt e closed :
    resolved self device = inr e ->
    session self device c pu rd
      [EvFindPrompt c (inl prompt); EvDisconnect c closed]
      (<["password_used" := pu]> (<["output" := VStr (escaped e)]>
        (<["password_used" := pu]>
          (<["hostname" := VStr (rstrip prompt "#>$ ")]> rd))))
| session_done prompt cmds sends closed :
    resolved self device = inl cmds ->
    Forall2 (fun cmd ev => exists r, ev = EvSendCommandTiming c cmd r) cmds sends ->
    session self device c pu rd
      (EvFindPrompt c (inl prompt) :: sends ++ [EvDisconnect c closed])
      (<["output" := VStr (transcript sends)]> (<["status" := VStr "success"]>
        (<["password_used" := pu]>
          (<["hostname" := VStr (rstrip prompt "#>$ ")]> rd)))).

(** The calls of one inspection and the result dictionary it returns. *)
Inductive inspected {Conn} (self : NetworkInspector) (device : Dict)
  : list (event Conn) -> Dict -> Prop :=
| inspected_exhausted evs :
    attempts (delete "commands" (delete "backup_password" device))
      (candidate_passwords device) evs Exhausted ->
    inspected self device evs
      (<["password_used" := VNone]> (<["output" := VStr AuthExhausted]>
        (fresh_result device)))
| inspected_aborted evs k e :
    attempts (delete "commands" (delete "backup_password" device))
      (candidate_passwords device) evs (Aborted k e) ->
    inspected self device evs
      (<["password_used" := VNone]> (<["output" := VStr (connect_failure e)]>
        (fresh_result device)))
| inspected_session evs k c sevs rd :
    attempts (delete "commands" (delete "backup_password" device))
      (candidate_passwords device) evs (Opened k c) ->
    session self device c (VStr (password_type k)) (fresh_result device) sevs rd ->
    inspected self device (evs ++ sevs) rd.

(** What the connection loop hands to the code after it, and the result
    dictionary it leaves, for each way the attempts can end. *)
Definition loop_value {Conn} (h : list Dict) (i : nat) (conn : option Conn)
    (pu : pyval) (r : attempt_end Conn) : after_loop :=
  match r with
  | Exhausted => Fell conn pu
  | Opened k c => Fell (Some c) (VStr (password_type (i + k)))
  | Aborted _ _ => Returned (length h)
  end.

Definition loop_result {Conn} (pu : pyval) (rd : Dict) (r : attempt_end Conn)
    : Dict :=
  match r with
  | Aborted _ e =>
      <["password_used" := pu]> (<["output" := VStr (connect_failure e)]> rd)
  | _ => rd
  end.

(** The calls of the negotiation: rejections, then at most one call that
    ends it. *)
Definition closing {Conn} (cfg : Dict) (pws : list pyval) (r : attempt_end Conn)
    : list (event Conn) :=
  match r with
  | Exhausted => []
  | Opened k c =>
      [EvConnectHandler (<["password" := default VNone (pws !! k)]> cfg) (inl c)]
  | Aborted k e =>
      [EvConnectHandler (<["password" := default VNone (pws !! k)]> cfg) (inr e)]
  end.

Definition attempted {Conn} (pws : list pyval) (r : attempt_end Conn) : nat :=
  match r with
  | Exhausted => length pws
  | Opened k _ | Aborted k _ => k
  end.

(** The link between a descriptor and the result made for it. *)
Definition result_for (h h' : list Dict) (device r : nat) : Prop :=
  (h' !!! r) !! "ip_address" = Some (default VNone ((h !!! device) !! "host")) /\
  (h' !!! r) !! "device_type" =
    Some (default VNone ((h !!! device) !! "device_type")).

(** The rank of the candidate tried last, [None] when none was tried. *)
Definition last_attempted_rank {Conn} (evs : list (event Conn)) : pyval :=
  match calls is_connect evs with
  | 0 => VNone
  | S i => VStr (password_type i)
  end.

(** What the scripted provider is expected to see and to leave for the
    three routers of [boot]. *)
Definition router1_calls : list (event string) := [
  EvConnectHandler (primary_kwargs router1) (inl "r1");
  EvFindPrompt "r1" (inl "r1# ");
  EvSendCommandTiming "r1" "show version" (inl "ok show version");
  EvSendCommandTiming "r1" "bad" (inr (Exn OtherException "rejected"));
  EvSendCommandTiming "r1" "show arp" (inl "ok show arp");
  EvDisconnect "r1" (inl tt)].

Definition router1_result : Dict :=
  list_to_map [
    ("hostname", VStr "r1"); ("ip_address", VStr "r1");
    ("device_type", VStr "cisco_ios"); ("status", VStr "success");
    ("output", VStr (transcript router1_calls));
    ("password_used", VStr "主密码")].

Definition router2_calls : list (event string) := [
  EvConnectHandler (primary_kwargs router2)
    (inr (Exn NetMikoAuthenticationException "denied"));
  EvConnectHandler (connect_kwargs router2 (VStr "slow"))
    (inr (Exn NetMikoTimeoutException "timed out"))].

Definition router2_result : Dict :=
  list_to_map [
    ("hostname", VStr "r2"); ("ip_address", VStr "r2");
    ("device_type", VStr "huawei"); ("status", VStr "failed");
    ("output", VStr "连接超时"); ("password_used", VNone)].

Definition router3_calls : list (event string) := [
  EvConnectHandler (primary_kwargs router3)
    (inr (Exn NetMikoAuthenticationException "denied"))].

Definition router3_result : Dict :=
  list_to_map [
    ("hostname", VStr "r3"); ("ip_address", VStr "r3");
    ("device_type", VStr "juniper"); ("status", VStr "failed");
    ("output", VStr AuthExhausted); ("password_used", VNone)].

(** C5 as the specification words it: after a failed negotiation the
    result records the rank of the candidate tried last. *)
Definition rank_is_last_attempted {World Conn} `{!SessionProvider World Conn}
    (self : NetworkInspector) (device : loc) (s : St World Conn) : Prop :=
  forall evs rd,
    observe (inspect_device self device) s = Some (evs, rd) ->
    calls is_opened evs = 0 ->
    rd !! "password_used" = Some (last_attempted_rank evs).

(** * Loading the inventory, the command line and the report *)

(** ** JSON documents

    What [json.load] returns: the loaders and [main] pass it on unread, so
    it is kept as parsed.  The members of an object are its items, keys
    distinct. *)
#[warnings="-register-all"]
Inductive json :=
| JNull
| JBool (b : bool)
| JNum (n : Z)
| JStr (s : string)
| JArr (items : list json)
| JObj (members : list (string * json)).

Definition json_truthy (j : json) : bool :=
  match j with
  | JNull => false
  | JBool b => b
  | JNum n => negb (n =? 0)%Z
  | JStr s => negb (String.eqb s "")
  | JArr items => match items with [] => false | _ :: _ => true end
  | JObj members => match members with [] => false | _ :: _ => true end
  end.

(** [key in d] and [d[key]] on the items of a dictionary. *)
Fixpoint json_get (key : string) (members : list (string * json)) : option json :=
  match members with
  | [] => None
  | (k, v) :: rest => if String.eqb k key then Some v else json_get key rest
  end.

Definition json_in (key : string) (members : list (string * json)) : bool :=
  match json_get key members with Some _ => true | None => false end.

(** A path argument that may be [None]; [if path:] is its truth value. *)
Definition path_truthy (path : option string) : bool :=
  match path with
  | Some p => negb (String.eqb p "")
  | None => false
  end.

(** What [open] followed by [json.load] does on a path: the two exceptions
    the loaders handle, any other exception, or the parsed document. *)
Inductive read_result :=
| ReadOk (data : json)
| FileNotFoundError
| JSONDecodeError
| ReadError (e : exn).

(** ** [_load_commands], [_load_devices] and [__init__]

    [fs] is the file system as [open] and [json.load] see it.  The object
    under construction is passed as the values of its fields. *)
Definition _load_commands (fs : string -> read_result)
    (commands_file : option string) : json + exn :=
  match fs (default "" commands_file) with
  | ReadOk data => inl data
  | FileNotFoundError => inl (JObj [])
  | JSONDecodeError => inl (JObj [])
  | ReadError e => inr e
  end.

(** Returns the device list and the value of [self.commands] afterwards. *)
Definition _load_devices (fs : string -> read_result) (devices_file : string)
    (commands_file : option string) (self_commands : json)
    : (json * json) + exn :=
  match fs devices_file with
  | ReadOk data =>
      match data with
      | JObj members =>
          if json_in "devices" members then
            let devices := default JNull (json_get "devices" members) in
            let self_commands :=
              if json_in "commands" members && negb (path_truthy commands_file)
              then default JNull (json_get "commands" members)
              else self_commands in
            inl (devices, self_commands)
          else inl (data, self_commands)
      | _ => inl (data, self_commands)
      end
  | FileNotFoundError => inl (JArr [], self_commands)
  | JSONDecodeError => inl (JArr [], self_commands)
  | ReadError e => inr e
  end.

(** The inspector as [__init__] leaves it. *)
Record Loaded := {
  devices_file : string;
  commands_file : option string;
  commands_json : json;
  devices_json : json
}.

Definition NetworkInspector_init (fs : string -> read_result)
    (devices_file : string) (commands_file : option string) : Loaded + exn :=
  match
    (if path_truthy commands_file then _load_commands fs commands_file
     else inl (JObj []))
  with
  | inr e => inr e
  | inl self_commands =>
      match _load_devices fs devices_file commands_file self_commands with
      | inr e => inr e
      | inl (devices, self_commands) =>
          inl {| devices_file := devices_file;
                 commands_file := commands_file;
                 commands_json := self_commands;
                 devices_json := devices |}
      end
  end.

(** ** [main]

    The parsed command line, and [main] up to its two last calls: it ends
    at once when there is no device, and otherwise calls [run_inspection]
    on the inspector and [save_results] with the output path given here. *)
Record Namespace := {
  args_config : option string;
  args_devices : option string;
  args_commands : option string;
  args_mixed : option string;
  args_output : option string
}.

Inductive main_outcome :=
| NoDevices
| Proceed (inspector : Loaded) (output_file : string).

Definition main (fs : string -> read_result) (args : Namespace)
    : main_outcome + exn :=
  match
    (if path_truthy (args_mixed args) then
       NetworkInspector_init fs (default "" (args_mixed args)) None
     else if path_truthy (args_devices args) then
       NetworkInspector_init fs (default "" (args_devices args))
         (args_commands args)
     else if path_truthy (args_config args) then
       NetworkInspector_init fs (default "" (args_config args)) None
     else NetworkInspector_init fs "devices.json" None)
  with
  | inr e => inr e
  | inl inspector =>
      if negb (json_truthy (devices_json inspector)) then inl NoDevices
      else
        inl (Proceed inspector
               (if path_truthy (args_output args)
                then default "" (args_output args)
                else "inspection_results.txt"))
  end.

(** ** [save_results]

    The report is the sequence of strings passed to [f.write]; a subscript
    on a missing key raises with the report written so far left in the
    file.  Opening the output file is taken to succeed.  [timestamp] is
    what [datetime.now().strftime] gave and [repr_str] is Python's [repr]
    on strings, used by [str] on a list. *)

Definition Wr (A : Type) : Type := list string -> (A + exn) * list string.

Definition wret {A} (a : A) : Wr A := fun out => (inl a, out).

Definition wbind {A B} (m : Wr A) (k : A -> Wr B) : Wr B :=
  fun out =>
    match m out with
    | (inl a, out') => k a out'
    | (inr e, out') => (inr e, out')
    end.

Notation "'let!!' x ':=' m 'in' k" := (wbind m (fun x => k))
  (at level 10, x name, m at level 100, k at level 200).

(** [f.write(text)] *)
Definition write (text : string) : Wr unit :=
  fun out => (inl tt, out ++ [text]).

(** [result[key]] *)
Definition subscript (result : Dict) (key : string) : Wr pyval :=
  fun out =>
    (match result !! key with
     | Some v => inl v
     | None => inr (KeyError key)
     end, out).

(** [s * n] *)
Fixpoint str_mul (s : string) (n : nat) : string :=
  match n with
  | 0 => ""
  | S n => s +:+ str_mul s n
  end.

(** [v != text] for a string [text] *)
Definition differs_from (v : pyval) (text : string) : bool :=
  match v with
  | VStr s => negb (String.eqb s text)
  | _ => true
  end.

Section Report.
Variable repr_str : string -> string.

(** [str(v)], as an f-string formats it *)
Definition py_str (v : pyval) : string :=
  match v with
  | VNone => "None"
  | VBool true => "True"
  | VBool false => "False"
  | VInt n => pretty n
  | VStr s => s
  | VList l => "[" +:+ String.concat ", " (repr_str <$> l) +:+ "]"
  end.

(** The body of the loop over the results. *)
Definition write_result (result : Dict) : Wr unit :=
  let!! hostname := subscript result "hostname" in
  let!! device_type := subscript result "device_type" in
  let!! _ := write ("设备: " +:+ py_str hostname +:+ " ("
                    +:+ py_str device_type +:+ ")" +:+ nl) in
  let!! _ :=
    (if py_truthy (default VNone (result !! "ip_address"))
     then let!! ip_address := subscript result "ip_address" in
          write ("IP地址: " +:+ py_str ip_address +:+ nl)
     else wret tt) in
  let!! status := subscript result "status" in
  let!! _ := write ("状态: " +:+ py_str status +:+ nl) in
  let!! password_used := subscript result "password_used" in
  let!! _ :=
    (if py_truthy password_used
     then let!! password_used := subscript result "password_used" in
          write ("登录密码: " +:+ py_str password_used +:+ nl)
     else let!! status := subscript result "status" in
          if differs_from status "success"
          then write ("登录密码: 未成功登录" +:+ nl)
          else wret tt) in
  let!! output := subscript result "output" in
  let!! _ := write ("输出:" +:+ nl +:+ py_str output +:+ nl) in
  write (str_mul "=" 50 +:+ nl +:+ nl).

Fixpoint write_results (results : list Dict) : Wr unit :=
  match results with
  | [] => wret tt
  | result :: rest =>
      let!! _ := write_result result in
      write_results rest
  end.

(** Returns how the call ended and, for [output_file], what was written. *)
Definition save_results (timestamp : string) (results : list Dict)
    (output_file : string) : (unit + exn) * (string * list string) :=
  let r :=
    (let!! _ := write ("巡检时间: " +:+ timestamp +:+ nl) in
     let!! _ := write (str_mul "=" 50 +:+ nl +:+ nl) in
     write_results results) [] in
  (r.1, (output_file, r.2)).

End Report.

(** The lines of a report that begin with a given label. *)
Fixpoint starts_with (label line : string) : bool :=
  match label with
  | EmptyString => true
  | String a label' =>
      match line with
      | EmptyString => false
      | String b line' => Ascii.eqb a b && starts_with label' line'
      end
  end.

Definition lines_with (label : string) (report : list string) : list string :=
  filter (fun line => starts_with label line = true) report.

(** The keys [save_results] subscripts. *)
Definition reportable (result : Dict) : Prop :=
  is_Some (result !! "hostname") /\ is_Some (result !! "device_type") /\
  is_Some (result !! "status") /\ is_Some (result !! "password_used") /\
  is_Some (result !! "output").


(** The first line of the block of a result, and its login line or lines. *)
Definition device_line (repr_str : string -> string) (result : Dict) : string :=
  "设备: " +:+ py_str repr_str (default VNone (result !! "hostname"))
  +:+ " (" +:+ py_str repr_str (default VNone (result !! "device_type"))
  +:+ ")" +:+ nl.

Definition login_lines (repr_str : string -> string) (result : Dict)
    : list string :=
  if py_truthy (default VNone (result !! "password_used"))
  then ["登录密码: "
        +:+ py_str repr_str (default VNone (result !! "password_used")) +:+ nl]
  else if differs_from (default VNone (result !! "status")) "success"
  then ["登录密码: 未成功登录" +:+ nl]
  else [].

(** ** More scripted runs *)

(** Backup opens after the primary was turned down. *)
Definition router4 : Dict :=
  list_to_map [
    ("host", VStr "r4"); ("device_type", VStr "huawei");
    ("password", VStr "wrong"); ("backup_password", VStr "good");
    ("commands", VList ["display version"])].

(** Opens, then gives no prompt. *)
Definition router5 : Dict :=
  list_to_map [
    ("host", VStr "mute"); ("device_type", VStr "cisco_ios");
    ("password", VStr "good")].

(** A platform that is a list. *)
Definition router6 : Dict :=
  list_to_map [
    ("host", VStr "r6"); ("device_type", VList ["cisco_ios"]);
    ("password", VStr "good")].

(** An override that is one string. *)
Definition router7 : Dict :=
  list_to_map [
    ("host", VStr "r7"); ("device_type", VStr "cisco_ios");
    ("password", VStr "good"); ("commands", VStr "ab")].

(** A platform whose external set is empty. *)
Definition router8 : Dict :=
  list_to_map [
    ("host", VStr "r8"); ("device_type", VStr "juniper");
    ("password", VStr "good")].

(** An empty address: the scripted prompt is decoration only. *)
Definition router9 : Dict :=
  list_to_map [
    ("host", VStr ""); ("device_type", VStr "cisco_ios");
    ("password", VStr "good"); ("commands", VList ["show version"])].

Definition second_inventory : NetworkInspector :=
  {| commands := {["juniper" := VList []]}; devices := [0; 1; 2; 3; 4; 5] |}.

Definition boot2 : St nat string :=
  MkSt 0 [] [router4; router5; router6; router7; router8; router9].

Definition router4_calls : list (event string) := [
  EvConnectHandler (primary_kwargs router4)
    (inr (Exn NetMikoAuthenticationException "denied"));
  EvConnectHandler (connect_kwargs router4 (VStr "good")) (inl "r4");
  EvFindPrompt "r4" (inl "r4# ");
  EvSendCommandTiming "r4" "display version" (inl "ok display version");
  EvDisconnect "r4" (inl tt)].

Definition router4_result : Dict :=
  list_to_map [
    ("hostname", VStr "r4"); ("ip_address", VStr "r4");
    ("device_type", VStr "huawei"); ("status", VStr "success");
    ("output", VStr (transcript router4_calls));
    ("password_used", VStr "备用密码")].

Definition router5_calls : list (event string) := [
  EvConnectHandler (primary_kwargs router5) (inl "mute");
  EvFindPrompt "mute" (inr (Exn OtherException "no prompt"));
  EvDisconnect "mute" (inl tt)].

Definition router5_result : Dict :=
  list_to_map [
    ("hostname", VStr "mute"); ("ip_address", VStr "mute");
    ("device_type", VStr "cisco_ios"); ("status", VStr "failed");
    ("output", VStr "执行命令时发生错误: no prompt");
    ("password_used", VStr "主密码")].

Definition router6_calls : list (event string) := [
  EvConnectHandler (primary_kwargs router6) (inl "r6");
  EvFindPrompt "r6" (inl "r6# ");
  EvDisconnect "r6" (inl tt)].

Definition router6_result : Dict :=
  list_to_map [
    ("hostname", VStr "r6"); ("ip_address", VStr "r6");
    ("device_type", VList ["cisco_ios"]); ("status", VStr "failed");
    ("output", VStr "执行命令时发生错误: unhashable type: 'list'");
    ("password_used", VStr "主密码")].

Definition router7_calls : list (event string) := [
  EvConnectHandler (primary_kwargs router7) (inl "r7");
  EvFindPrompt "r7" (inl "r7# ");
  EvSendCommandTiming "r7" "a" (inl "ok a");
  EvSendCommandTiming "r7" "b" (inl "ok b");
  EvDisconnect "r7" (inl tt)].

Definition router7_result : Dict :=
  list_to_map [
    ("hostname", VStr "r7"); ("ip_address", VStr "r7");
    ("device_type", VStr "cisco_ios"); ("status", VStr "success");
    ("output", VStr (transcript router7_calls));
    ("password_used", VStr "主密码")].

Definition router8_calls : list (event string) := [
  EvConnectHandler (primary_kwargs router8) (inl "r8");
  EvFindPrompt "r8" (inl "r8# ");
  EvDisconnect "r8" (inl tt)].

Definition router8_result : Dict :=
  list_to_map [
    ("hostname", VStr "r8"); ("ip_address", VStr "r8");
    ("device_type", VStr "juniper"); ("status", VStr "success");
    ("output", VStr ""); ("password_used", VStr "主密码")].

Definition router9_calls : list (event string) := [
  EvConnectHandler (primary_kwargs router9) (inl "");
  EvFindPrompt "" (inl "# ");
  EvSendCommandTiming "" "show version" (inl "ok show version");
  EvDisconnect "" (inl tt)].

Definition router9_result : Dict :=
  list_to_map [
    ("hostname", VStr ""); ("ip_address", VStr "");
    ("device_type", VStr "cisco_ios"); ("status", VStr "success");
    ("output", VStr (transcript router9_calls));
    ("password_used", VStr "主密码")].

(** A disk with a mixed file, a commands file and an object that has no
    [devices] member. *)
Definition mixed_document : list (string * json) := [
  ("devices", JArr [JObj [("host", JStr "10.0.0.1"); ("password", JStr "p1")]]);
  ("commands", JObj [("cisco_ios", JArr [JStr "show clock"])])].

Definition stray_document : list (string * json) := [
  ("commands", JObj [("cisco_ios", JArr [JStr "show clock"])])].

Definition disk (path : string) : read_result :=
  if String.eqb path "mixed.json" then ReadOk (JObj mixed_document)
  else if String.eqb path "cmds.json" then
    ReadOk (JObj [("huawei", JArr [JStr "display clock"])])
  else if String.eqb path "stray.json" then ReadOk (JObj stray_document)
  else if String.eqb path "broken.json" then JSONDecodeError
  else FileNotFoundError.

Definition empty_disk (path : string) : read_result := FileNotFoundError.

Definition mixed_only : Namespace :=
  {| args_config := Some "stray.json"; args_devices := Some "missing.json";
     args_commands := Some "cmds.json"; args_mixed := Some "mixed.json";
     args_output := None |}.

Definition positional_only : Namespace :=
  {| args_config := Some "mixed.json"; args_devices := None;
     args_commands := Some "cmds.json"; args_mixed := None;
     args_output := Some "report.txt" |}.

(** [repr] for strings without quotes or escapes. *)
Definition plain_repr (s : string) : string := "'" +:+ s +:+ "'".


(** The files [main] opens for a command line. *)
Definition files_read (args : Namespace) : list string :=
  if path_truthy (args_mixed args) then [default "" (args_mixed args)]
  else if path_truthy (args_devices args) then
    (if path_truthy (args_commands args)
     then [default "" (args_commands args)] else []) ++
    [default "" (args_devices args)]
  else if path_truthy (args_config args) then [default "" (args_config args)]
  else ["devices.json"].

(** A disk that differs from [disk] everywhere but on the mixed file. *)
Definition other_disk (path : string) : read_result :=
  if String.eqb path "mixed.json" then ReadOk (JObj mixed_document)
  else JSONDecodeError.

(** * Properties *)

(** ** The heap while [inspect_device] runs: the caller's objects, then
    [result], then [device_config] *)

Section Heap.
Implicit Types (h : list Dict) (rd cd x : Dict).

Lemma heap_old h l2 (l : nat) : l < length h -> (h ++ l2) !!! l = h !!! l.
Proof. intros. by apply lookup_total_app_l. Qed.

Lemma heap_result h rd cd : (h ++ [rd; cd]) !!! length h = rd.
Proof. rewrite lookup_total_app_r; [|lia]. by rewrite Nat.sub_diag. Qed.

Lemma heap_config h rd cd : (h ++ [rd; cd]) !!! S (length h) = cd.
Proof.
  rewrite lookup_total_app_r; [|lia].
  by replace (S (length h) - length h) with 1 by lia.
Qed.

Lemma heap_set_result h rd cd x :
  <[length h := x]> (h ++ [rd; cd]) = h ++ [x; cd].
Proof. rewrite insert_app_r_alt; [|lia]. by rewrite Nat.sub_diag. Qed.

Lemma heap_set_config h rd cd x :
  <[S (length h) := x]> (h ++ [rd; cd]) = h ++ [rd; x].
Proof.
  rewrite insert_app_r_alt; [|lia].
  by replace (S (length h) - length h) with 1 by lia.
Qed.
End Heap.

Create Rewrite HintDb heap.
#[export] Hint Rewrite heap_result heap_config heap_set_result heap_set_config : heap.

Section Proofs.
Context {World Conn : Type} `{!SessionProvider World Conn}.
Implicit Types (s : St World Conn) (h : list Dict).

Ltac mrun :=
  cbv [bind ret lift raise try_except try_finally dict_get dict_in
       dict_getitem dict_setitem dict_pop dict_copy new_dict load
       call_ConnectHandler call_find_prompt call_send_command_timing
       call_disconnect];
  cbn [world trace heap fst snd].

Ltac mrun0 :=
  cbv [bind ret lift raise dict_get dict_in
       dict_getitem dict_setitem dict_pop dict_copy new_dict load];
  cbn [world trace heap fst snd].

Ltac hsimp :=
  repeat progress (cbn [fst snd world trace heap]; autorewrite with heap).

Lemma attempts_insert (cfg : Dict) pw0 pws (evs : list (event Conn)) r :
  attempts (<["password" := pw0]> cfg) pws evs r -> attempts cfg pws evs r.
Proof.
  induction 1; rewrite ?insert_insert_eq; by constructor.
Qed.

Lemma connect_loop_spec pws : forall i w tr h rd cd conn pu,
  exists w' evs r cd',
    attempts cd pws evs r /\
    (forall pw pws', pws = pw :: pws' ->
       exists evs', evs =
         EvConnectHandler (<["password" := pw]> cd)
           (ConnectHandler (<["password" := pw]> cd) w).1 :: evs') /\
    connect_loop (length h) (S (length h)) i pws conn pu
        (MkSt w tr (h ++ [rd; cd])) =
      (inl (loop_value h i conn pu r),
       MkSt w' (tr ++ evs) (h ++ [loop_result pu rd r; cd'])).
Proof.
  induction pws as [|pw pws IH]; intros i w tr h rd cd conn pu.
  - exists w, [], Exhausted, cd. split; [constructor|]. split; [done|].
    cbn. rewrite app_nil_r. reflexivity.
  - cbn [connect_loop]. mrun.
    autorewrite with heap.
    destruct (ConnectHandler (<["password" := pw]> cd) w) as [[c|e] w1] eqn:E.
    + cbn. exists w1, [EvConnectHandler (<["password" := pw]> cd) (inl c)],
        (Opened 0 c), (<["password" := pw]> cd).
      split; [constructor|]. split.
      { intros ? ? [= <- <-]. rewrite E. by eexists. }
      cbn. by rewrite Nat.add_0_r.
    + cbn. destruct e as [cls msg]. destruct cls; cbn.
      * destruct (IH (S i) w1
          (tr ++ [EvConnectHandler (<["password" := pw]> cd)
                    (inr (Exn NetMikoAuthenticationException msg))])
          h rd (<["password" := pw]> cd) conn pu)
          as (w' & evs & r & cd' & Hat & _ & Hrun).
        rewrite Hrun.
        exists w', (EvConnectHandler (<["password" := pw]> cd)
                   (inr (Exn NetMikoAuthenticationException msg)) :: evs),
          (later r), cd'.
        split.
        { constructor; [done|]. by eapply attempts_insert. }
        split.
        { intros ? ? [= <- <-]. rewrite E. by eexists. }
        rewrite <- app_assoc. cbn.
        destruct r; cbn; try done.
        by rewrite Nat.add_succ_r.
      * mrun. autorewrite with heap.
        eexists w1, _, (Aborted 0 (Exn NetMikoTimeoutException msg)), _.
        split; [by constructor|]. split; [|done].
        intros ? ? [= <- <-]. rewrite E. by eexists.
      * mrun. autorewrite with heap.
        eexists w1, _, (Aborted 0 (Exn OtherException msg)), _.
        split; [by constructor|]. split; [|done].
        intros ? ? [= <- <-]. rewrite E. by eexists.
Qed.

Lemma string_app_assoc (a b c : string) : (a +:+ b) +:+ c = a +:+ (b +:+ c).
Proof.
  induction a as [|x a IH]; [reflexivity|].
  change (String x ((a +:+ b) +:+ c) = String x (a +:+ (b +:+ c))).
  by rewrite IH.
Qed.

Lemma string_app_nil_r (a : string) : a +:+ "" = a.
Proof.
  induction a as [|x a IH]; [reflexivity|].
  change (String x (a +:+ "") = String x a). by rewrite IH.
Qed.

Lemma run_commands_spec (c : Conn) cmds : forall output w tr h,
  exists w' sends,
    Forall2 (fun cmd ev => exists r, ev = EvSendCommandTiming c cmd r) cmds sends /\
    run_commands c cmds output (MkSt w tr h) =
      (inl (output +:+ transcript sends), MkSt w' (tr ++ sends) h).
Proof.
  induction cmds as [|cmd cmds IH]; intros output w tr h.
  - exists w, []. split; [constructor|].
    cbn. rewrite app_nil_r, string_app_nil_r. reflexivity.
  - cbn [run_commands]. mrun.
    destruct (send_command_timing c cmd 30 false true w) as [r w1] eqn:E.
    cbn [fst snd].
    destruct (IH (output +:+ entry cmd r) w1
                (tr ++ [EvSendCommandTiming c cmd r]) h)
      as (w' & sends & Hs & Hrun).
    exists w', (EvSendCommandTiming c cmd r :: sends). split.
    { constructor; [by eexists|done]. }
    rewrite <- app_assoc in Hrun. cbn [app] in Hrun.
    cbn [transcript].
    rewrite <- (string_app_assoc output (entry cmd r) (transcript sends)).
    rewrite <- Hrun.
    unfold entry.
    destruct r as [o|e]; rewrite (string_app_assoc output); reflexivity.
Qed.

Lemma finally_spec {A} (m : M A) (c : Conn) (s s1 : St World Conn) r :
  m s = (r, s1) ->
  exists w' closed,
    try_finally m (finally_block c) s =
      (r, MkSt w' (trace s1 ++ [EvDisconnect c closed]) (heap s1)).
Proof.
  intros Hm. unfold try_finally, finally_block. rewrite Hm. mrun.
  destruct (disconnect c (world s1)) as [[[]|e] w1]; cbn [fst snd];
    eexists _, _; reflexivity.
Qed.

Lemma try_spec self (device : nat) (c : Conn) pu w tr h rd cd :
  device < length h ->
  exists w' evs rd',
    (forall closed,
       session self (h !!! device) c pu rd (evs ++ [EvDisconnect c closed]) rd') /\
    try_except (try_block self device (length h) c pu)
               (except_block (length h) pu) (MkSt w tr (h ++ [rd; cd])) =
    (inl tt, MkSt w' (tr ++ evs) (h ++ [rd'; cd])).
Proof.
  intros Hdev.
  unfold try_except, try_block, except_block.
  unfold bind at 1. unfold call_find_prompt. cbn [world trace heap].
  destruct (find_prompt c w) as [[prompt|e] w1]; cbn [fst snd].
  - mrun. hsimp. rewrite heap_old by done.
    pose proof (eq_refl (resolved self (h !!! device))) as Hres.
    unfold resolved at 2 in Hres.
    destruct (_get_inspection_commands self (h !!! device)) as [v|e].
    + destruct (py_iter v) as [cmds|e].
      * match goal with |- context [run_commands c cmds "" (MkSt ?w0 ?tr0 ?h0)] =>
          destruct (run_commands_spec c cmds "" w0 tr0 h0)
            as (w3 & sends & Hs & ->) end.
        hsimp.
        eexists w3, (_ :: sends), _. split.
        { intros closed.
          apply (session_done _ _ _ _ _ prompt cmds sends closed); done. }
        rewrite <- !app_assoc. reflexivity.
      * hsimp.
        eexists w1, [_], _. split.
        { intros closed.
          apply (session_unresolved _ _ _ _ _ prompt e closed); done. }
        reflexivity.
    + hsimp.
      eexists w1, [_], _. split.
      { intros closed.
        apply (session_unresolved _ _ _ _ _ prompt e closed); done. }
      reflexivity.
  - mrun. hsimp.
    eexists w1, [_], _. split.
    { intros closed. apply (session_no_prompt _ _ _ _ _ e closed). }
    reflexivity.
Qed.

Lemma session_spec self (device : nat) (c : Conn) pu w tr h rd cd :
  device < length h ->
  exists w' sevs rd',
    session self (h !!! device) c pu rd sevs rd' /\
    try_finally
      (try_except (try_block self device (length h) c pu)
                  (except_block (length h) pu))
      (finally_block c) (MkSt w tr (h ++ [rd; cd])) =
    (inl tt, MkSt w' (tr ++ sevs) (h ++ [rd'; cd])).
Proof.
  intros Hdev.
  destruct (try_spec self device c pu w tr h rd cd Hdev)
    as (w1 & evs & rd' & Hses & Htry).
  destruct (finally_spec _ c _ _ _ Htry) as (w2 & closed & ->).
  cbn [trace heap].
  exists w2, (evs ++ [EvDisconnect c closed]), rd'.
  split; [apply Hses|]. by rewrite app_assoc.
Qed.

Lemma after_loop_spec self (device : nat) w tr h rd cd (d : Dict)
    (evs : list (event Conn)) r pws :
  device < length h ->
  d = h !!! device ->
  rd = fresh_result d ->
  attempts (delete "commands" (delete "backup_password" d)) pws evs r ->
  candidate_passwords d = pws ->
  exists w' evs' rd',
    inspected self d (evs ++ evs') rd' /\
    match loop_value h 0 None VNone r with
    | Returned r => ret r
    | Fell None password_used =>
        bind (dict_setitem (length h) "output" (VStr "认证失败：所有密码尝试均失败"))
          (fun _ => bind (dict_setitem (length h) "password_used" password_used)
             (fun _ => ret (length h)))
    | Fell (Some connection) password_used =>
        bind (try_finally
                (try_except
                   (try_block self device (length h) connection password_used)
                   (except_block (length h) password_used))
                (finally_block connection))
          (fun _ => ret (length h))
    end (MkSt w (tr ++ evs) (h ++ [loop_result VNone rd r; cd])) =
    (inl (length h), MkSt w' (tr ++ evs ++ evs') (h ++ [rd'; cd])).
Proof.
  intros Hdev -> -> Hat Hc.
  destruct r as [|k c|k e]; cbn [loop_value loop_result].
  - mrun0. hsimp. eexists w, [], _. split; [|by rewrite app_nil_r].
    rewrite app_nil_r. apply inspected_exhausted. by rewrite Hc.
  - change (0 + k) with k. unfold bind at 1.
    destruct (session_spec self device c (VStr (password_type k)) w
                (tr ++ evs) h (fresh_result (h !!! device)) cd Hdev)
      as (w' & sevs & rd' & Hses & ->).
    mrun0. eexists w', sevs, rd'. split; [|by rewrite app_assoc].
    eapply inspected_session; [by rewrite Hc|done].
  - mrun0. eexists w, [], _. split; [|by rewrite app_nil_r].
    rewrite app_nil_r. eapply inspected_aborted. rewrite Hc. done.
Qed.

Lemma inspect_device_spec self (device : nat) (s : St World Conn) :
  device < length (heap s) ->
  exists w' evs rd cd,
    inspected self (heap s !!! device) evs rd /\
    (exists evs', evs =
       EvConnectHandler (primary_kwargs (heap s !!! device))
         (ConnectHandler (primary_kwargs (heap s !!! device)) (world s)).1
       :: evs') /\
    inspect_device self device s =
      (inl (length (heap s)),
       MkSt w' (trace s ++ evs) (heap s ++ [rd; cd])).
Proof.
  destruct s as [w tr h]. cbn [heap trace]. intros Hdev.
  unfold inspect_device. mrun0.
  fold (fresh_result (h !!! device)).
  rewrite !(heap_old h) by done.
  rewrite !(heap_old (h ++ _)) by (rewrite length_app; lia).
  rewrite !(heap_old h) by done.
  rewrite <- !app_assoc. cbn [app].
  rewrite !length_app. cbn [length]. rewrite !Nat.add_1_r.
  set (d := h !!! device).
  pose proof (eq_refl (candidate_passwords d)) as Hc.
  unfold candidate_passwords at 2 in Hc.
  assert (Hloop : forall pws, candidate_passwords d = pws ->
    exists w' evs rd cd,
      inspected self d evs rd /\
      (exists evs', evs =
         EvConnectHandler (primary_kwargs d)
           (ConnectHandler (primary_kwargs d) w).1 :: evs') /\
      (let (s0, s') :=
         connect_loop (length h) (S (length h)) 0 pws None VNone
           (MkSt w tr (h ++ [fresh_result d;
                             delete "commands" (delete "backup_password" d)])) in
       match s0 with
       | inl a =>
           match a with
           | Returned r => ret r
           | Fell None password_used =>
               bind (dict_setitem (length h) "output" (VStr "认证失败：所有密码尝试均失败"))
                 (fun _ => bind (dict_setitem (length h) "password_used" password_used)
                    (fun _ => ret (length h)))
           | Fell (Some connection) password_used =>
               bind (try_finally
                       (try_except
                          (try_block self device (length h) connection password_used)
                          (except_block (length h) password_used))
                       (finally_block connection))
                 (fun _ => ret (length h))
           end s'
       | inr e => (inr e, s')
       end) =
      (inl (length h), MkSt w' (tr ++ evs) (h ++ [rd; cd]))).
  { intros pws Hpws.
    destruct (connect_loop_spec pws 0 w tr h (fresh_result d)
                (delete "commands" (delete "backup_password" d)) None VNone)
      as (w1 & evs & r & cd' & Hat & Hfirst & ->).
    destruct (after_loop_spec self device w1 tr h (fresh_result d) cd' d evs r pws
                Hdev eq_refl eq_refl Hat Hpws)
      as (w' & evs' & rd' & Hins & ->).
    eexists w', (evs ++ evs'), rd', cd'. split; [done|]. split; [|done].
    destruct (Hfirst (default VNone (d !! "password")) (tail pws))
      as (evs0 & ->).
    { rewrite <- Hpws. reflexivity. }
    by eexists. }
  destruct (d !! "backup_password") as [bp|] eqn:Hbp.
  - rewrite bool_decide_true by eauto. cbn [heap].
    rewrite !(heap_old h) by done. fold d. rewrite Hbp.
    destruct (py_truthy bp) eqn:Hbpt; hsimp.
    + rewrite !(heap_old h) by done. fold d. rewrite Hbp. hsimp.
      apply (Hloop _ Hc).
    + apply (Hloop _ Hc).
  - rewrite bool_decide_false by (intros [? ?]; done). hsimp.
    apply (Hloop _ Hc).
Qed.
End Proofs.

(** ** Provider calls as lists *)

Section Facts.
Context {Conn : Type}.
Implicit Types (ev : event Conn) (evs : list (event Conn)).

Lemma calls_nil (p : event Conn -> bool) : calls p [] = 0.
Proof. reflexivity. Qed.

Lemma calls_cons (p : event Conn -> bool) ev evs :
  calls p (ev :: evs) = (if p ev then 1 else 0) + calls p evs.
Proof.
  unfold calls. rewrite filter_cons.
  destruct (p ev); [rewrite decide_True by done|rewrite decide_False by done];
    reflexivity.
Qed.

Lemma calls_app (p : event Conn -> bool) evs1 evs2 :
  calls p (evs1 ++ evs2) = calls p evs1 + calls p evs2.
Proof. unfold calls. by rewrite filter_app, length_app. Qed.

Lemma fresh_result_lookup (d : Dict) :
  fresh_result d !! "hostname" = Some (default VNone (d !! "host")) /\
  fresh_result d !! "ip_address" = Some (default VNone (d !! "host")) /\
  fresh_result d !! "device_type" = Some (default VNone (d !! "device_type")) /\
  fresh_result d !! "status" = Some (VStr "failed") /\
  fresh_result d !! "output" = Some (VStr "") /\
  fresh_result d !! "password_used" = Some VNone.
Proof. unfold fresh_result. cbn [list_to_map foldr]. cbn [fst snd]. repeat split; by simplify_map_eq. Qed.

Lemma rejected_kinds ev :
  is_rejected ev = true ->
  is_connect ev = true /\ is_opened ev = false /\ is_send ev = false /\
  is_disconnect ev = false.
Proof. destruct ev as [kw [c|[[] msg]]| | |]; cbn; intros; done. Qed.

Lemma calls_rejected evs :
  Forall (fun ev => is_rejected ev = true) evs ->
  calls is_connect evs = length evs /\ calls is_opened evs = 0 /\
  calls is_send evs = 0 /\ calls is_disconnect evs = 0.
Proof.
  induction 1 as [|ev evs Hev _ (IH1 & IH2 & IH3 & IH4)]; [done|].
  destruct (rejected_kinds ev Hev) as (H1 & H2 & H3 & H4).
  rewrite !calls_cons, H1, H2, H3, H4, IH1, IH2, IH3, IH4. done.
Qed.

Lemma attempts_shape cfg pws evs r :
  attempts cfg pws evs r ->
  exists rej,
    evs = rej ++ closing cfg pws r /\
    Forall (fun ev => is_rejected ev = true) rej /\
    length rej = attempted pws r /\
    attempted pws r <= length pws /\
    match r with
    | Exhausted => True
    | Opened k _ => k < length pws
    | Aborted k e =>
        k < length pws /\ exn_cls e <> NetMikoAuthenticationException
    end.
Proof.
  induction 1 as [|pw pws c|pw pws e He|pw pws e evs r He Hat IH].
  - exists []. repeat split; done.
  - exists []. repeat split; cbn; try done; lia.
  - exists []. repeat split; cbn; try done; lia.
  - destruct IH as (rej & -> & Hrej & Hlen & Hle & Hr).
    exists (EvConnectHandler (<["password" := pw]> cfg) (inr e) :: rej).
    split; [by destruct r|]. split.
    { constructor; [|done]. destruct e as [[] msg]; done. }
    destruct r; cbn in *; repeat split; try done; try lia; by destruct Hr.
Qed.

Lemma attempts_opened cfg pws kw (c : Conn) rest r :
  attempts cfg pws (EvConnectHandler kw (inl c) :: rest) r ->
  rest = [] /\ r = Opened 0 c.
Proof. by inversion 1. Qed.

Lemma attempts_abort_last cfg pws evs r pre kw e post :
  attempts cfg pws evs r ->
  evs = pre ++ EvConnectHandler kw (inr e) :: post ->
  exn_cls e <> NetMikoAuthenticationException ->
  post = [] /\ exists k, r = Aborted k e.
Proof.
  intros Hat. revert pre.
  induction Hat as [|pw pws c|pw pws e0 He0|pw pws e0 evs r He0 Hat IH];
    intros pre Heq Hne.
  - by destruct pre.
  - destruct pre as [|? [|? ?]]; done.
  - destruct pre as [|? [|? ?]]; try done.
    simplify_eq/=. eauto.
  - destruct pre as [|ev pre]; simplify_eq/=.
    destruct (IH pre eq_refl Hne) as (-> & k & ->). split; [done|].
    by eexists.
Qed.

Lemma sent_commands_app evs1 evs2 :
  sent_commands (evs1 ++ evs2) = sent_commands evs1 ++ sent_commands evs2.
Proof. unfold sent_commands. apply omap_app. Qed.

Lemma transcript_app evs1 evs2 :
  transcript (evs1 ++ evs2) = transcript evs1 +:+ transcript evs2.
Proof.
  induction evs1 as [|[] evs1 IH]; cbn [app transcript]; try done.
  by rewrite IH, string_app_assoc.
Qed.

Lemma connects_silent evs :
  Forall (fun ev => is_connect ev = true) evs ->
  sent_commands evs = [] /\ transcript evs = "" /\
  calls is_send evs = 0 /\ calls is_disconnect evs = 0 /\
  (forall c r, EvFindPrompt c r ∉ evs).
Proof.
  induction 1 as [|[] evs Hev _ (IH1 & IH2 & IH3 & IH4 & IH5)]; try done.
  - repeat split; try done. intros c r Hin. inversion Hin.
  - rewrite !calls_cons. repeat split; try done.
    intros c r' Hin. inversion Hin; subst. by eapply IH5.
Qed.

Lemma sends_shape (c : Conn) cmds sends :
  Forall2 (fun cmd ev => exists r, ev = EvSendCommandTiming c cmd r) cmds sends ->
  sent_commands sends = cmds /\
  calls is_connect sends = 0 /\ calls is_opened sends = 0 /\
  calls is_disconnect sends = 0 /\ calls is_send sends = length cmds /\
  (forall c' r, EvFindPrompt c' r ∉ sends) /\
  (forall c' r, EvDisconnect c' r ∉ sends).
Proof.
  induction 1 as [|cmd ev cmds sends [r ->] _ (IH1 & IH2 & IH3 & IH4 & IH5 & IH6 & IH7)].
  - repeat split; try done; intros ? ? Hin; inversion Hin.
  - rewrite !calls_cons. cbn. rewrite IH2, IH3, IH4, IH5.
    repeat split; try done.
    + unfold sent_commands in *. cbn. by rewrite IH1.
    + intros c' r' Hin. inversion Hin; subst. by eapply IH6.
    + intros c' r' Hin. inversion Hin; subst. by eapply IH7.
Qed.

Lemma session_calls self d (c : Conn) pu rd0 sevs rd :
  session self d c pu rd0 sevs rd ->
  calls is_connect sevs = 0 /\ calls is_opened sevs = 0 /\
  calls is_disconnect sevs = 1 /\
  (forall c' r, EvDisconnect c' r ∈ sevs -> c' = c).
Proof.
  destruct 1 as [e closed|prompt e closed Hres|prompt cmds sends closed Hres Hs].
  - repeat split; try done.
    intros c' r Hin. apply elem_of_cons in Hin as [[=]|Hin].
    apply elem_of_cons in Hin as [[= -> _]|Hin]; [done|inversion Hin].
  - repeat split; try done.
    intros c' r Hin. apply elem_of_cons in Hin as [[=]|Hin].
    apply elem_of_cons in Hin as [[= -> _]|Hin]; [done|inversion Hin].
  - destruct (sends_shape c cmds sends Hs) as (_ & H1 & H2 & H3 & _ & _ & H4).
    rewrite !calls_cons, !calls_app, H1, H2, H3. repeat split; try done.
    intros c' r Hin.
    apply elem_of_cons in Hin as [|Hin]; [done|].
    apply elem_of_app in Hin as [Hin|Hin]; [by apply H4 in Hin|].
    apply elem_of_cons in Hin as [[= -> _]|Hin]; [done|inversion Hin].
Qed.

Lemma session_result self d (c : Conn) pu rd0 sevs rd :
  session self d c pu rd0 sevs rd ->
  rd !! "password_used" = Some pu /\
  rd !! "ip_address" = rd0 !! "ip_address" /\
  rd !! "device_type" = rd0 !! "device_type" /\
  (is_Some (rd0 !! "hostname") -> is_Some (rd !! "hostname")) /\
  (is_Some (rd0 !! "status") -> is_Some (rd !! "status")).
Proof.
  destruct 1; repeat split; by simplify_map_eq.
Qed.

Lemma closing_calls cfg pws (r : attempt_end Conn) :
  calls is_connect (closing cfg pws r) =
    match r with Exhausted => 0 | _ => 1 end /\
  calls is_opened (closing cfg pws r) =
    match r with Opened _ _ => 1 | _ => 0 end /\
  calls is_send (closing cfg pws r) = 0 /\
  calls is_disconnect (closing cfg pws r) = 0.
Proof. by destruct r. Qed.

Lemma attempts_connects cfg pws evs (r : attempt_end Conn) :
  attempts cfg pws evs r -> Forall (fun ev => is_connect ev = true) evs.
Proof. induction 1; repeat constructor; done. Qed.

Lemma attempts_calls cfg pws evs (r : attempt_end Conn) :
  attempts cfg pws evs r ->
  calls is_connect evs = length evs /\
  calls is_opened evs = match r with Opened _ _ => 1 | _ => 0 end /\
  calls is_send evs = 0 /\ calls is_disconnect evs = 0 /\
  length evs = match r with Exhausted => length pws | Opened k _ | Aborted k _ => S k end /\
  length evs <= length pws.
Proof.
  intros Hat.
  destruct (attempts_shape _ _ _ _ Hat) as (rej & -> & Hrej & Hlen & Hle & Hr).
  destruct (calls_rejected _ Hrej) as (H1 & H2 & H3 & H4).
  destruct (closing_calls cfg pws r) as (K1 & K2 & K3 & K4).
  rewrite !calls_app, H1, H2, H3, H4, K1, K2, K3, K4, length_app, Hlen.
  destruct r; cbn in *; repeat split; lia.
Qed.

Lemma calls_elem (p : event Conn -> bool) ev evs :
  ev ∈ evs -> p ev = true -> 1 <= calls p evs.
Proof.
  intros Hin Hp. apply list_elem_of_split in Hin as (l1 & l2 & ->).
  rewrite calls_app, calls_cons, Hp. lia.
Qed.

Lemma attempts_no_stray cfg pws evs (r : attempt_end Conn) kw e :
  attempts cfg pws evs r ->
  EvConnectHandler kw (inr e) ∈ evs ->
  exn_cls e <> NetMikoAuthenticationException ->
  exists k, r = Aborted k e.
Proof.
  intros Hat Hin Hne. apply list_elem_of_split in Hin as (l1 & l2 & ->).
  by destruct (attempts_abort_last _ _ _ _ _ _ _ _ Hat eq_refl Hne) as (_ & ?).
Qed.
End Facts.

Section Claims.
Context {World Conn : Type} `{!SessionProvider World Conn}.
Implicit Types (s : St World Conn) (evs : list (event Conn)) (rd : Dict).

Lemma observe_inspect self (device : nat) s evs rd :
  device < length (heap s) ->
  observe (inspect_device self device) s = Some (evs, rd) ->
  inspected self (heap s !!! device) evs rd /\
  exists evs', evs =
    EvConnectHandler (primary_kwargs (heap s !!! device))
      (ConnectHandler (primary_kwargs (heap s !!! device)) (world s)).1 :: evs'.
Proof.
  intros Hdev Hobs.
  destruct (inspect_device_spec self device s Hdev)
    as (w' & evs0 & rd0 & cd & Hins & Hfirst & Hrun).
  unfold observe in Hobs. rewrite Hrun in Hobs. cbn [trace heap] in Hobs.
  rewrite drop_app_length, heap_result in Hobs. by simplify_eq.
Qed.

Lemma inspect_device_returns self (device : nat) s :
  device < length (heap s) ->
  exists evs rd, observe (inspect_device self device) s = Some (evs, rd).
Proof.
  intros Hdev.
  destruct (inspect_device_spec self device s Hdev)
    as (w' & evs0 & rd0 & cd & Hins & Hfirst & Hrun).
  unfold observe. rewrite Hrun. by eexists _, _.
Qed.

(** C2. When the provider opens a session for the primary credential, the
    result records the primary rank and [ConnectHandler] was called once. *)
Theorem primary_success_is_final self (device : nat) s evs rd (c : Conn) :
  device < length (heap s) ->
  observe (inspect_device self device) s = Some (evs, rd) ->
  (ConnectHandler (primary_kwargs (heap s !!! device)) (world s)).1 = inl c ->
  rd !! "password_used" = Some (VStr "主密码") /\ calls is_connect evs = 1.
Proof.
  intros Hdev Hobs Hc.
  destruct (observe_inspect _ _ _ _ _ Hdev Hobs) as (Hins & evs' & Hfirst).
  rewrite Hc in Hfirst.
  destruct Hins as [evs Hat|evs k e Hat|evs k c1 sevs rd Hat Hses].
  - subst evs. by apply attempts_opened in Hat as (_ & ?).
  - subst evs. by apply attempts_opened in Hat as (_ & ?).
  - destruct evs as [|ev evs].
    { apply attempts_calls in Hat as (_ & _ & _ & _ & Hlen & _). done. }
    cbn in Hfirst. injection Hfirst as -> <-.
    apply attempts_opened in Hat as (-> & [= -> ->]).
    destruct (session_result _ _ _ _ _ _ _ Hses) as (Hpu & _).
    destruct (session_calls _ _ _ _ _ _ _ Hses) as (Hcon & _).
    split; [done|]. cbn [app]. by rewrite calls_cons, Hcon.
Qed.

(** C3. A [ConnectHandler] call that ends in a timeout or in any error other
    than an authentication failure is the last call of the inspection; the
    result is failed and its output is the description of that failure. *)
Theorem connection_error_aborts self (device : nat) s evs rd pre kw e post :
  device < length (heap s) ->
  observe (inspect_device self device) s = Some (evs, rd) ->
  evs = pre ++ EvConnectHandler kw (inr e) :: post ->
  exn_cls e <> NetMikoAuthenticationException ->
  post = [] /\
  rd !! "status" = Some (VStr "failed") /\
  rd !! "output" = Some (VStr (connect_failure e)).
Proof.
  intros Hdev Hobs Hev Hne.
  destruct (observe_inspect _ _ _ _ _ Hdev Hobs) as (Hins & _).
  destruct Hins as [evs Hat|evs k e0 Hat|evs k c1 sevs rd Hat Hses].
  - by destruct (attempts_abort_last _ _ _ _ _ _ _ _ Hat Hev Hne) as (_ & ? & ?).
  - destruct (attempts_abort_last _ _ _ _ _ _ _ _ Hat Hev Hne)
      as (-> & ? & [= _ ->]).
    repeat split; by simplify_map_eq.
  - exfalso.
    assert (Hin : EvConnectHandler kw (inr e) ∈ evs ++ sevs).
    { rewrite Hev. apply elem_of_app. right. constructor. }
    apply elem_of_app in Hin as [Hin|Hin].
    + by destruct (attempts_no_stray _ _ _ _ _ _ Hat Hin Hne).
    + apply (calls_elem is_connect) in Hin; [|done].
      destruct (session_calls _ _ _ _ _ _ _ Hses) as (Hcon & _). lia.
Qed.

(** With no backup password, or an empty one, the primary credential is the
    only candidate. *)
Lemma candidates_without_backup (device : Dict) :
  (device !! "backup_password" = None \/
   exists v, device !! "backup_password" = Some v /\ py_truthy v = false) ->
  candidate_passwords device = [default VNone (device !! "password")].
Proof.
  unfold candidate_passwords. intros [->|(v & -> & ->)]; reflexivity.
Qed.

(** C4. When every [ConnectHandler] call is turned down as an authentication
    failure, the result is failed with the exhausted-credentials text, each
    candidate was tried and no other call was made: nothing was sent. *)
Theorem all_rejected_is_exhausted self (device : nat) s evs rd :
  device < length (heap s) ->
  observe (inspect_device self device) s = Some (evs, rd) ->
  (forall ev, ev ∈ evs -> is_connect ev = true -> is_rejected ev = true) ->
  rd !! "status" = Some (VStr "failed") /\
  rd !! "output" = Some (VStr AuthExhausted) /\
  calls is_send evs = 0 /\
  length evs = length (candidate_passwords (heap s !!! device)).
Proof.
  intros Hdev Hobs Hall.
  destruct (observe_inspect _ _ _ _ _ Hdev Hobs) as (Hins & _).
  destruct Hins as [evs Hat|evs k e0 Hat|evs k c1 sevs rd Hat Hses].
  - destruct (attempts_calls _ _ _ _ Hat) as (_ & _ & Hs & _ & Hlen & _).
    repeat split; try done; by simplify_map_eq.
  - exfalso.
    destruct (attempts_shape _ _ _ _ Hat) as (rej & -> & _ & _ & _ & _ & Hne).
    cbn [closing] in Hall.
    specialize (Hall (EvConnectHandler
      (<["password" := default VNone (candidate_passwords (heap s !!! device) !! k)]>
         (delete "commands" (delete "backup_password" (heap s !!! device))))
      (inr e0))).
    destruct e0 as [[] msg]; try done; cbn in Hall;
      (assert (false = true);
       [apply Hall; [apply elem_of_app; right; constructor|done]|done]).
  - exfalso.
    destruct (attempts_shape _ _ _ _ Hat) as (rej & -> & _).
    cbn [closing] in Hall.
    assert (false = true); [|done].
    apply (Hall (EvConnectHandler
      (<["password" := default VNone (candidate_passwords (heap s !!! device) !! k)]>
         (delete "commands" (delete "backup_password" (heap s !!! device))))
      (inl c1))); [|done].
    apply elem_of_app. left. apply elem_of_app. right. constructor.
Qed.

(** C5, as the code has it.  When no session was opened, the result is
    failed and the rank it records is [None]. *)
Theorem failed_negotiation_rank_none self (device : nat) s evs rd :
  device < length (heap s) ->
  observe (inspect_device self device) s = Some (evs, rd) ->
  calls is_opened evs = 0 ->
  rd !! "status" = Some (VStr "failed") /\
  rd !! "password_used" = Some VNone.
Proof.
  intros Hdev Hobs Hnone.
  destruct (observe_inspect _ _ _ _ _ Hdev Hobs) as (Hins & _).
  destruct Hins as [evs Hat|evs k e0 Hat|evs k c1 sevs rd Hat Hses].
  - split; by simplify_map_eq.
  - split; by simplify_map_eq.
  - destruct (attempts_calls _ _ _ _ Hat) as (_ & Hop & _).
    rewrite calls_app, Hop in Hnone. lia.
Qed.

(** C8. [disconnect] is called once when a session was opened and not at
    all otherwise; at most one session is opened, and the session that is
    closed is the one that was opened. *)
Theorem session_closed_exactly_once self (device : nat) s evs rd :
  device < length (heap s) ->
  observe (inspect_device self device) s = Some (evs, rd) ->
  calls is_disconnect evs = calls is_opened evs /\
  calls is_opened evs <= 1 /\
  (forall c r, EvDisconnect c r ∈ evs ->
     exists kw, EvConnectHandler kw (inl c) ∈ evs).
Proof.
  intros Hdev Hobs.
  destruct (observe_inspect _ _ _ _ _ Hdev Hobs) as (Hins & _).
  destruct Hins as [evs Hat|evs k e0 Hat|evs k c1 sevs rd Hat Hses].
  - destruct (attempts_calls _ _ _ _ Hat) as (_ & Hop & _ & Hdis & _).
    rewrite Hop, Hdis. repeat split; try lia.
    intros c r Hin. apply (calls_elem is_disconnect) in Hin; [lia|done].
  - destruct (attempts_calls _ _ _ _ Hat) as (_ & Hop & _ & Hdis & _).
    rewrite Hop, Hdis. repeat split; try lia.
    intros c r Hin. apply (calls_elem is_disconnect) in Hin; [lia|done].
  - destruct (attempts_calls _ _ _ _ Hat) as (_ & Hop & _ & Hdis & _).
    destruct (session_calls _ _ _ _ _ _ _ Hses) as (_ & Hop' & Hdis' & Hsame).
    rewrite !calls_app, Hop, Hdis, Hop', Hdis'. repeat split; try lia.
    intros c r Hin. apply elem_of_app in Hin as [Hin|Hin].
    + apply (calls_elem is_disconnect) in Hin; [lia|done].
    + apply Hsame in Hin as ->.
      destruct (attempts_shape _ _ _ _ Hat) as (rej & -> & _).
      eexists. cbn [closing].
      apply elem_of_app. left. apply elem_of_app. right. constructor.
Qed.

(** C10. [inspect_device] returns, and every object that existed before the
    call, the descriptor among them, is as it was. *)
Theorem descriptor_not_mutated self (device : nat) s :
  device < length (heap s) ->
  exists r s',
    inspect_device self device s = (inl r, s') /\
    heap s' !! device = heap s !! device /\
    (forall l : nat, l < length (heap s) -> heap s' !! l = heap s !! l).
Proof.
  intros Hdev.
  destruct (inspect_device_spec self device s Hdev)
    as (w' & evs0 & rd0 & cd & Hins & Hfirst & Hrun).
  eexists _, _. split; [exact Hrun|]. cbn [heap].
  split; [by apply lookup_app_l|]. intros l Hl. by apply lookup_app_l.
Qed.

Lemma rstrip_spec (s chars : string) :
  exists tail,
    s = rstrip s chars +:+ tail /\
    Forall (fun ch => in_chars ch chars = true) (String.list_ascii_of_string tail) /\
    (forall ch, last_char (rstrip s chars) = Some ch -> in_chars ch chars = false).
Proof.
  induction s as [|c rest (tail & Heq & Htail & Hlast)].
  - exists "". by repeat split.
  - cbn [rstrip]. destruct (rstrip rest chars) as [|a r'] eqn:Hr.
    + destruct (in_chars c chars) eqn:Hc.
      * exists (String c tail). repeat split; [|by constructor|done].
        cbn. by rewrite Heq at 1.
      * exists tail. repeat split; [|done|].
        -- cbn. by rewrite Heq at 1.
        -- intros ch [= <-]. done.
    + exists tail. repeat split; [|done|].
      * change (String c rest = String c (String a r' +:+ tail)). by rewrite <- Heq.
      * intros ch Hch. apply Hlast. exact Hch.
Qed.

Lemma session_hostname self d (c : Conn) pu rd0 sevs rd :
  session self d c pu rd0 sevs rd ->
  (forall c' p, EvFindPrompt c' (inl p) ∈ sevs ->
     rd !! "hostname" = Some (VStr (rstrip p "#>$ "))) /\
  ((forall c' p, EvFindPrompt c' (inl p) ∉ sevs) ->
     rd !! "hostname" = rd0 !! "hostname").
Proof.
  destruct 1 as [e closed|prompt e closed Hres|prompt cmds sends closed Hres Hs].
  - split.
    + intros c' p Hin. apply elem_of_cons in Hin as [[=]|Hin].
      apply elem_of_cons in Hin as [[=]|Hin]. inversion Hin.
    + intros _. by simplify_map_eq.
  - split.
    + intros c' p Hin. apply elem_of_cons in Hin as [[= -> ->]|Hin].
      { by simplify_map_eq. }
      apply elem_of_cons in Hin as [[=]|Hin]. inversion Hin.
    + intros Hno. exfalso. eapply Hno. constructor.
  - split.
    + intros c' p Hin. apply elem_of_cons in Hin as [[= -> ->]|Hin].
      { by simplify_map_eq. }
      destruct (sends_shape c cmds sends Hs) as (_ & _ & _ & _ & _ & Hnf & _).
      apply elem_of_app in Hin as [Hin|Hin]; [by apply Hnf in Hin|].
      apply elem_of_cons in Hin as [[=]|Hin]. inversion Hin.
    + intros Hno. exfalso. eapply Hno. constructor.
Qed.

(** C9. The result's host name is the prompt that [find_prompt] returned,
    without its trailing ['#'], ['>'], ['$'] and blanks; when no prompt was
    obtained it is the descriptor's [host]. *)
Theorem hostname_from_prompt self (device : nat) s evs rd :
  device < length (heap s) ->
  observe (inspect_device self device) s = Some (evs, rd) ->
  (forall c prompt, EvFindPrompt c (inl prompt) ∈ evs ->
     exists host tail,
       rd !! "hostname" = Some (VStr host) /\
       host = rstrip prompt "#>$ " /\
       prompt = host +:+ tail /\
       Forall (fun ch => in_chars ch "#>$ " = true)
         (String.list_ascii_of_string tail) /\
       (forall ch, last_char host = Some ch -> in_chars ch "#>$ " = false)) /\
  ((forall c prompt, EvFindPrompt c (inl prompt) ∉ evs) ->
     rd !! "hostname" = Some (default VNone ((heap s !!! device) !! "host"))).
Proof.
  intros Hdev Hobs.
  destruct (observe_inspect _ _ _ _ _ Hdev Hobs) as (Hins & _).
  assert (Hconn : forall evs0 r,
    attempts (delete "commands" (delete "backup_password" (heap s !!! device)))
      (candidate_passwords (heap s !!! device)) evs0 r ->
    forall (c : Conn) (p : string + exn), EvFindPrompt c p ∉ evs0).
  { intros evs0 r Hat.
    by destruct (connects_silent _ (attempts_connects _ _ _ _ Hat))
      as (_ & _ & _ & _ & ?). }
  destruct Hins as [evs Hat|evs k e0 Hat|evs k c1 sevs rd Hat Hses].
  - split; [|intros _; by simplify_map_eq].
    intros c p Hin. by apply (Hconn _ _ Hat) in Hin.
  - split; [|intros _; by simplify_map_eq].
    intros c p Hin. by apply (Hconn _ _ Hat) in Hin.
  - destruct (session_hostname _ _ _ _ _ _ _ Hses) as (Hyes & Hno). split.
    + intros c p Hin. apply elem_of_app in Hin as [Hin|Hin].
      { by apply (Hconn _ _ Hat) in Hin. }
      destruct (rstrip_spec p "#>$ ") as (tail & Heq & Htail & Hlast).
      exists (rstrip p "#>$ "), tail. repeat split; try done.
      by eapply Hyes.
    + intros Hnone. rewrite Hno; [by simplify_map_eq|].
      intros c p Hin. eapply Hnone. apply elem_of_app. by right.
Qed.

Lemma session_commands self d (c : Conn) pu rd0 sevs rd :
  session self d c pu rd0 sevs rd ->
  rd0 !! "status" = Some (VStr "failed") ->
  (forall c' prompt cmds,
     EvFindPrompt c' (inl prompt) ∈ sevs -> resolved self d = inl cmds ->
     sent_commands sevs = cmds /\
     rd !! "status" = Some (VStr "success") /\
     rd !! "output" = Some (VStr (transcript sevs))) /\
  (rd !! "status" = Some (VStr "success") ->
     exists c' prompt cmds,
       EvFindPrompt c' (inl prompt) ∈ sevs /\ resolved self d = inl cmds).
Proof.
  destruct 1 as [e closed|prompt e closed Hres|prompt cmds sends closed Hres Hs];
    intros Hst.
  - split.
    + intros c' p cmds Hin. apply elem_of_cons in Hin as [[=]|Hin].
      apply elem_of_cons in Hin as [[=]|Hin]. inversion Hin.
    + intros Hs. by simplify_map_eq.
  - split.
    + intros c' p cmds _ Hcmds. congruence.
    + intros Hs. by simplify_map_eq.
  - destruct (sends_shape c cmds sends Hs) as (Hsent & _).
    split.
    + intros c' p cmds' _ Hcmds. assert (cmds' = cmds) as -> by congruence.
      change (EvFindPrompt c (inl prompt) :: sends ++ [EvDisconnect c closed])
        with ([EvFindPrompt c (inl prompt)] ++ sends ++ [EvDisconnect c closed]).
      rewrite !sent_commands_app, !transcript_app, Hsent.
      cbn [sent_commands omap transcript app].
      rewrite app_nil_r, string_app_nil_r.
      repeat split; by simplify_map_eq.
    + intros _. exists c, prompt, cmds. split; [constructor|done].
Qed.

(** C7. Once the prompt is read and the commands are resolved, every
    resolved command is sent, in order, whatever the earlier ones gave; the
    result is a success and its output is the transcript: one labelled
    section per command sent, holding its output or its failure.  A result
    is a success in that case only. *)
Theorem every_command_runs self (device : nat) s evs rd :
  device < length (heap s) ->
  observe (inspect_device self device) s = Some (evs, rd) ->
  (forall c prompt cmds,
     EvFindPrompt c (inl prompt) ∈ evs ->
     resolved self (heap s !!! device) = inl cmds ->
     sent_commands evs = cmds /\
     rd !! "status" = Some (VStr "success") /\
     rd !! "output" = Some (VStr (transcript evs))) /\
  (rd !! "status" = Some (VStr "success") ->
     exists cmds,
       resolved self (heap s !!! device) = inl cmds /\
       sent_commands evs = cmds /\
       rd !! "output" = Some (VStr (transcript evs))).
Proof.
  intros Hdev Hobs.
  destruct (observe_inspect _ _ _ _ _ Hdev Hobs) as (Hins & _).
  assert (Hconn : forall evs0 r,
    attempts (delete "commands" (delete "backup_password" (heap s !!! device)))
      (candidate_passwords (heap s !!! device)) evs0 r ->
    sent_commands evs0 = [] /\ transcript evs0 = "" /\
    forall (c : Conn) (p : string + exn), EvFindPrompt c p ∉ evs0).
  { intros evs0 r Hat.
    by destruct (connects_silent _ (attempts_connects _ _ _ _ Hat))
      as (? & ? & _ & _ & ?). }
  destruct Hins as [evs Hat|evs k e0 Hat|evs k c1 sevs rd Hat Hses].
  - destruct (Hconn _ _ Hat) as (_ & _ & Hnf). split.
    + intros c p cmds Hin. by apply Hnf in Hin.
    + intros Hs. by simplify_map_eq.
  - destruct (Hconn _ _ Hat) as (_ & _ & Hnf). split.
    + intros c p cmds Hin. by apply Hnf in Hin.
    + intros Hs. by simplify_map_eq.
  - destruct (Hconn _ _ Hat) as (Hsent & Htr & Hnf).
    destruct (session_commands _ _ _ _ _ _ _ Hses) as (Hyes & Hconv).
    { by simplify_map_eq. }
    rewrite sent_commands_app, transcript_app, Hsent, Htr.
    change ("" +:+ transcript sevs) with (transcript sevs). cbn [app].
    split.
    + intros c p cmds Hin Hres. apply elem_of_app in Hin as [Hin|Hin].
      { by apply Hnf in Hin. }
      by eapply Hyes.
    + intros Hs. destruct (Hconv Hs) as (c & p & cmds & Hin & Hres).
      exists cmds. split; [done|].
      by destruct (Hyes c p cmds Hin Hres) as (? & _ & ?).
Qed.
End Claims.

(** C6. For a descriptor whose override, when present, is a list (or null)
    and whose platform is hashable, [_get_inspection_commands] returns what
    the four-level precedence gives. *)
Theorem resolution_follows_precedence (self : NetworkInspector) (device : Dict) :
  (device !! "commands" = None \/ device !! "commands" = Some VNone \/
   exists l, device !! "commands" = Some (VList l)) ->
  py_hashable (default VNone (device !! "device_type")) = true ->
  _get_inspection_commands self device = inl (resolve_by_precedence self device).
Proof.
  intros Hov Hhash.
  unfold _get_inspection_commands, resolve_by_precedence.
  assert (Hrest :
    match
      (if negb (bool_decide (commands self = ∅))
       then py_contains (commands self) (default VNone (device !! "device_type"))
       else inl false)
    with
    | inr e => inr e
    | inl true => py_getitem (commands self) (default VNone (device !! "device_type"))
    | inl false =>
        py_get_default commands_map (default VNone (device !! "device_type"))
          (VList ["show version"])
    end =
    inl match device !! "device_type" with
        | Some (VStr platform) =>
            match commands self !! platform with
            | Some external => external
            | None =>
                match commands_map !! platform with
                | Some builtin => builtin
                | None => VList ["show version"]
                end
            end
        | _ => VList ["show version"]
        end).
  { destruct (device !! "device_type") as [[| | |p|]|]; cbn in *; try done;
      try (by destruct (negb (bool_decide (commands self = ∅)))).
    destruct (bool_decide (commands self = ∅)) eqn:Hempty; cbn.
    - apply bool_decide_eq_true in Hempty. rewrite Hempty, lookup_empty.
      by destruct (commands_map !! p).
    - destruct (commands self !! p) as [v|] eqn:Hp.
      + rewrite bool_decide_true by eauto. done.
      + rewrite bool_decide_false by (intros [? ?]; done).
        by destruct (commands_map !! p). }
  destruct Hov as [->|[->|[l ->]]]; cbn; try exact Hrest.
  destruct l; cbn; [exact Hrest|done].
Qed.

Section Run.
Context {World Conn : Type} `{!SessionProvider World Conn}.
Implicit Types (s : St World Conn) (evs : list (event Conn)) (rd : Dict).

Lemma inspected_fields self (d : Dict) evs rd :
  inspected self d evs rd ->
  rd !! "ip_address" = Some (default VNone (d !! "host")) /\
  rd !! "device_type" = Some (default VNone (d !! "device_type")) /\
  is_Some (rd !! "hostname") /\ is_Some (rd !! "status").
Proof.
  destruct 1 as [evs Hat|evs k e0 Hat|evs k c1 sevs rd Hat Hses].
  - repeat split; simplify_map_eq; eauto.
  - repeat split; simplify_map_eq; eauto.
  - destruct (session_result _ _ _ _ _ _ _ Hses) as (_ & -> & -> & Hh & Hs).
    split; [by simplify_map_eq|]. split; [by simplify_map_eq|].
    split; [apply Hh|apply Hs]; simplify_map_eq; eauto.
Qed.

Lemma Forall2_impl_valid {A B} (R : A -> Prop) (P Q : A -> B -> Prop) l k :
  Forall R l -> Forall2 P l k ->
  (forall x y, R x -> P x y -> Q x y) -> Forall2 Q l k.
Proof.
  intros HR HP Himp. induction HP as [|x y l k Hxy _ IH]; [constructor|].
  apply Forall_cons in HR as (Hx & HR). constructor; auto.
Qed.

Lemma run_inspection_loop_spec self devs : forall results s,
  Forall (fun d : nat => d < length (heap s)) devs ->
  exists new s' ext,
    run_inspection_loop self devs results s = (inl (results ++ new), s') /\
    heap s' = heap s ++ ext /\
    Forall (fun r : nat => length (heap s) <= r < length (heap s')) new /\
    NoDup new /\
    Forall2 (result_for (heap s) (heap s')) devs new.
Proof.
  induction devs as [|device devs IH]; intros results s Hvalid.
  - exists [], s, []. rewrite !app_nil_r. repeat split; constructor.
  - apply Forall_cons in Hvalid as (Hdev & Hvalid).
    destruct (inspect_device_spec self device s Hdev)
      as (w1 & evs & rd & cd & Hins & _ & Hrun).
    destruct (inspected_fields _ _ _ _ Hins) as (Hip & Hdt & [hn Hhn] & [st Hst]).
    cbn [run_inspection_loop]. unfold bind at 1. rewrite Hrun.
    unfold bind at 1. unfold dict_getitem at 1. cbn [heap].
    rewrite heap_result, Hhn.
    unfold bind at 1. unfold dict_getitem at 1. cbn [heap].
    rewrite heap_result, Hst.
    set (s1 := MkSt w1 (trace s ++ evs) (heap s ++ [rd; cd])).
    destruct (IH (results ++ [length (heap s)]) s1) as (new & s' & ext & Hloop & Hheap & Hnew & Hnd & Hres).
    { eapply Forall_impl; [exact Hvalid|]. cbn. intros d Hd.
      rewrite length_app. lia. }
    exists (length (heap s) :: new), s', ([rd; cd] ++ ext).
    subst s1. cbn [heap] in Hheap, Hnew, Hres.
    split. { rewrite Hloop. by rewrite <- app_assoc. }
    split. { rewrite Hheap. by rewrite <- app_assoc. }
    assert (Hlen : length (heap s') = length (heap s) + 2 + length ext).
    { rewrite Hheap, !length_app. cbn. lia. }
    split.
    { constructor; [lia|]. eapply Forall_impl; [exact Hnew|].
      cbn. intros r. rewrite length_app. cbn. lia. }
    split.
    { constructor; [|done]. intros Hin.
      eapply Forall_forall in Hnew; [|exact Hin]. cbn in Hnew.
      rewrite length_app in Hnew. cbn in Hnew. lia. }
    constructor.
    + unfold result_for. rewrite Hheap.
      rewrite (heap_old (heap s ++ [rd; cd])) by (rewrite length_app; cbn; lia).
      rewrite heap_result. done.
    + eapply Forall2_impl_valid; [exact Hvalid|exact Hres|].
      intros d r Hd. unfold result_for. cbn beta.
      by rewrite (heap_old (heap s)) by done.
Qed.

(** C1. [run_inspection] returns a list with one result per descriptor of
    the inventory, whatever the provider answers: the results are distinct
    objects, and the i-th result carries the address and the platform of the
    i-th descriptor. *)
Theorem one_result_per_device self s :
  Forall (fun d : nat => d < length (heap s)) (devices self) ->
  exists results s',
    run_inspection self s = (inl results, s') /\
    length results = length (devices self) /\
    NoDup results /\
    Forall2 (result_for (heap s) (heap s')) (devices self) results.
Proof.
  intros Hvalid.
  destruct (run_inspection_loop_spec self (devices self) [] s Hvalid)
    as (new & s' & ext & Hrun & _ & _ & Hnd & Hres).
  exists new, s'. split; [exact Hrun|]. split; [|done].
  symmetry. by eapply Forall2_length.
Qed.
End Run.

(** ** The properties on the scripted provider *)

Lemma router1_observed :
  observe (inspect_device no_commands 0) boot =
    Some (router1_calls, router1_result).
Proof. vm_compute. reflexivity. Qed.

Lemma router2_observed :
  observe (inspect_device no_commands 1) boot =
    Some (router2_calls, router2_result).
Proof. vm_compute. reflexivity. Qed.

Lemma router3_observed :
  observe (inspect_device no_commands 2) boot =
    Some (router3_calls, router3_result).
Proof. vm_compute. reflexivity. Qed.

Lemma one_result_per_device_witness :
  Forall (fun d : nat => d < length (heap boot)) (devices no_commands) /\
  exists results s',
    run_inspection no_commands boot = (inl results, s') /\
    length results = length (devices no_commands) /\
    NoDup results /\
    Forall2 (result_for (heap boot) (heap s')) (devices no_commands) results.
Proof.
  assert (H : Forall (fun d : nat => d < length (heap boot)) (devices no_commands)).
  { repeat constructor; simpl; lia. }
  split; [exact H|]. exact (one_result_per_device no_commands boot H).
Defined.

Lemma primary_success_is_final_witness :
  0 < length (heap boot) /\
  observe (inspect_device no_commands 0) boot =
    Some (router1_calls, router1_result) /\
  (ConnectHandler (primary_kwargs (heap boot !!! 0)) (world boot)).1 = inl "r1" /\
  router1_result !! "password_used" = Some (VStr "主密码") /\
  calls is_connect router1_calls = 1.
Proof.
  assert (H1 : 0 < length (heap boot)) by (simpl; lia).
  assert (H2 : observe (inspect_device no_commands 0) boot =
                 Some (router1_calls, router1_result))
    by (vm_compute; reflexivity).
  assert (H3 : (ConnectHandler (primary_kwargs (heap boot !!! 0)) (world boot)).1
                 = inl "r1") by (vm_compute; reflexivity).
  exact (conj H1 (conj H2 (conj H3
    (primary_success_is_final no_commands 0 boot router1_calls router1_result
       "r1" H1 H2 H3)))).
Defined.

Lemma connection_error_aborts_witness :
  1 < length (heap boot) /\
  observe (inspect_device no_commands 1) boot =
    Some (router2_calls, router2_result) /\
  router2_calls =
    [EvConnectHandler (primary_kwargs router2)
       (inr (Exn NetMikoAuthenticationException "denied"))] ++
    EvConnectHandler (connect_kwargs router2 (VStr "slow"))
      (inr (Exn NetMikoTimeoutException "timed out")) :: [] /\
  exn_cls (Exn NetMikoTimeoutException "timed out")
    <> NetMikoAuthenticationException /\
  @nil (event string) = [] /\
  router2_result !! "status" = Some (VStr "failed") /\
  router2_result !! "output" =
    Some (VStr (connect_failure (Exn NetMikoTimeoutException "timed out"))).
Proof.
  assert (H1 : 1 < length (heap boot)) by (simpl; lia).
  assert (H2 : observe (inspect_device no_commands 1) boot =
                 Some (router2_calls, router2_result))
    by (vm_compute; reflexivity).
  assert (H3 : router2_calls =
    [EvConnectHandler (primary_kwargs router2)
       (inr (Exn NetMikoAuthenticationException "denied"))] ++
    EvConnectHandler (connect_kwargs router2 (VStr "slow"))
      (inr (Exn NetMikoTimeoutException "timed out")) :: []) by reflexivity.
  assert (H4 : exn_cls (Exn NetMikoTimeoutException "timed out")
                 <> NetMikoAuthenticationException) by (simpl; discriminate).
  exact (conj H1 (conj H2 (conj H3 (conj H4
    (connection_error_aborts no_commands 1 boot router2_calls router2_result
       _ _ _ _ H1 H2 H3 H4))))).
Defined.

Lemma all_rejected_is_exhausted_witness :
  2 < length (heap boot) /\
  observe (inspect_device no_commands 2) boot =
    Some (router3_calls, router3_result) /\
  (forall ev, ev ∈ router3_calls -> is_connect ev = true -> is_rejected ev = true) /\
  router3_result !! "status" = Some (VStr "failed") /\
  router3_result !! "output" = Some (VStr AuthExhausted) /\
  calls is_send router3_calls = 0 /\
  length router3_calls = length (candidate_passwords (heap boot !!! 2)).
Proof.
  assert (H1 : 2 < length (heap boot)) by (simpl; lia).
  assert (H2 : observe (inspect_device no_commands 2) boot =
                 Some (router3_calls, router3_result))
    by (vm_compute; reflexivity).
  assert (H3 : forall ev, ev ∈ router3_calls ->
                 is_connect ev = true -> is_rejected ev = true).
  { intros ev Hin _. apply elem_of_cons in Hin as [->|Hin]; [reflexivity|].
    inversion Hin. }
  exact (conj H1 (conj H2 (conj H3
    (all_rejected_is_exhausted no_commands 2 boot router3_calls router3_result
       H1 H2 H3)))).
Defined.

Lemma failed_negotiation_rank_none_witness :
  1 < length (heap boot) /\
  observe (inspect_device no_commands 1) boot =
    Some (router2_calls, router2_result) /\
  calls is_opened router2_calls = 0 /\
  router2_result !! "status" = Some (VStr "failed") /\
  router2_result !! "password_used" = Some VNone.
Proof.
  assert (H1 : 1 < length (heap boot)) by (simpl; lia).
  assert (H2 : observe (inspect_device no_commands 1) boot =
                 Some (router2_calls, router2_result))
    by (vm_compute; reflexivity).
  assert (H3 : calls is_opened router2_calls = 0) by (vm_compute; reflexivity).
  exact (conj H1 (conj H2 (conj H3
    (failed_negotiation_rank_none no_commands 1 boot router2_calls
       router2_result H1 H2 H3)))).
Defined.

(** C5 as worded fails on [router2]: the backup credential was the last one
    tried, and the rank recorded is [None]. *)
Lemma rank_is_last_attempted_counterexample :
  ~ rank_is_last_attempted no_commands 1 boot.
Proof.
  intros Hclaim.
  assert (H2 : observe (inspect_device no_commands 1) boot =
                 Some (router2_calls, router2_result))
    by (vm_compute; reflexivity).
  assert (H3 : calls is_opened router2_calls = 0) by (vm_compute; reflexivity).
  specialize (Hclaim router2_calls router2_result H2 H3).
  vm_compute in Hclaim. discriminate Hclaim.
Qed.

Lemma resolution_follows_precedence_witness :
  (overriding !! "commands" = None \/ overriding !! "commands" = Some VNone \/
   exists l, overriding !! "commands" = Some (VList l)) /\
  py_hashable (default VNone (overriding !! "device_type")) = true /\
  _get_inspection_commands with_commands overriding =
    inl (resolve_by_precedence with_commands overriding) /\
  resolve_by_precedence with_commands overriding = VList ["cmdA"].
Proof.
  assert (H1 : overriding !! "commands" = None \/
               overriding !! "commands" = Some VNone \/
               exists l, overriding !! "commands" = Some (VList l)).
  { right. right. exists ["cmdA"]. vm_compute. reflexivity. }
  assert (H2 : py_hashable (default VNone (overriding !! "device_type")) = true)
    by (vm_compute; reflexivity).
  split; [exact H1|]. split; [exact H2|]. split.
  - exact (resolution_follows_precedence with_commands overriding H1 H2).
  - vm_compute. reflexivity.
Defined.

Lemma every_command_runs_witness :
  0 < length (heap boot) /\
  observe (inspect_device no_commands 0) boot =
    Some (router1_calls, router1_result) /\
  (forall c prompt cmds,
     EvFindPrompt c (inl prompt) ∈ router1_calls ->
     resolved no_commands (heap boot !!! 0) = inl cmds ->
     sent_commands router1_calls = cmds /\
     router1_result !! "status" = Some (VStr "success") /\
     router1_result !! "output" = Some (VStr (transcript router1_calls))) /\
  (router1_result !! "status" = Some (VStr "success") ->
     exists cmds,
       resolved no_commands (heap boot !!! 0) = inl cmds /\
       sent_commands router1_calls = cmds /\
       router1_result !! "output" = Some (VStr (transcript router1_calls))).
Proof.
  assert (H1 : 0 < length (heap boot)) by (simpl; lia).
  assert (H2 : observe (inspect_device no_commands 0) boot =
                 Some (router1_calls, router1_result))
    by (vm_compute; reflexivity).
  exact (conj H1 (conj H2
    (every_command_runs no_commands 0 boot router1_calls router1_result H1 H2))).
Defined.

Lemma session_closed_exactly_once_witness :
  0 < length (heap boot) /\
  observe (inspect_device no_commands 0) boot =
    Some (router1_calls, router1_result) /\
  calls is_disconnect router1_calls = calls is_opened router1_calls /\
  calls is_opened router1_calls <= 1 /\
  (forall c r, EvDisconnect c r ∈ router1_calls ->
     exists kw, EvConnectHandler kw (inl c) ∈ router1_calls).
Proof.
  assert (H1 : 0 < length (heap boot)) by (simpl; lia).
  assert (H2 : observe (inspect_device no_commands 0) boot =
                 Some (router1_calls, router1_result))
    by (vm_compute; reflexivity).
  exact (conj H1 (conj H2
    (session_closed_exactly_once no_commands 0 boot router1_calls
       router1_result H1 H2))).
Defined.

Lemma hostname_from_prompt_witness :
  0 < length (heap boot) /\
  observe (inspect_device no_commands 0) boot =
    Some (router1_calls, router1_result) /\
  (forall c prompt, EvFindPrompt c (inl prompt) ∈ router1_calls ->
     exists host tail,
       router1_result !! "hostname" = Some (VStr host) /\
       host = rstrip prompt "#>$ " /\
       prompt = host +:+ tail /\
       Forall (fun ch => in_chars ch "#>$ " = true)
         (String.list_ascii_of_string tail) /\
       (forall ch, last_char host = Some ch -> in_chars ch "#>$ " = false)) /\
  ((forall c prompt, EvFindPrompt c (inl prompt) ∉ router1_calls) ->
     router1_result !! "hostname" =
       Some (default VNone ((heap boot !!! 0) !! "host"))).
Proof.
  assert (H1 : 0 < length (heap boot)) by (simpl; lia).
  assert (H2 : observe (inspect_device no_commands 0) boot =
                 Some (router1_calls, router1_result))
    by (vm_compute; reflexivity).
  exact (conj H1 (conj H2
    (hostname_from_prompt no_commands 0 boot router1_calls router1_result
       H1 H2))).
Defined.

Lemma descriptor_not_mutated_witness :
  0 < length (heap boot) /\
  exists r s',
    inspect_device no_commands 0 boot = (inl r, s') /\
    heap s' !! 0 = heap boot !! 0 /\
    (forall l : nat, l < length (heap boot) -> heap s' !! l = heap boot !! l).
Proof.
  assert (H1 : 0 < length (heap boot)) by (simpl; lia).
  exact (conj H1 (descriptor_not_mutated no_commands 0 boot H1)).
Defined.

(** * Further properties of the engine *)

Section MoreFacts.
Context {Conn : Type}.
Implicit Types (ev : event Conn) (evs : list (event Conn)).

Lemma attempts_kwargs cfg pws evs (r : attempt_end Conn) :
  attempts cfg pws evs r ->
  forall k kw r', evs !! k = Some (EvConnectHandler kw r') ->
    exists pw, pws !! k = Some pw /\ kw = <["password" := pw]> cfg.
Proof.
  induction 1 as [|pw pws c|pw pws e He|pw pws e evs r He Hat IH];
    intros k kw r' Hk.
  - done.
  - destruct k as [|[|k]]; simplify_eq/=. eauto.
  - destruct k as [|[|k]]; simplify_eq/=. eauto.
  - destruct k as [|k]; simplify_eq/=; eauto.
Qed.

Lemma connects_only_lookup evs k ev :
  Forall (fun ev => is_connect ev = true) evs ->
  evs !! k = Some ev -> is_connect ev = true.
Proof. intros Hall Hk. eapply Forall_lookup_1 in Hall; eauto. Qed.

Lemma calls_zero_not_in (p : event Conn -> bool) ev evs :
  calls p evs = 0 -> ev ∈ evs -> p ev = false.
Proof.
  intros Hz Hin. destruct (p ev) eqn:Hp; [|done].
  apply (calls_elem p) in Hin; [lia|done].
Qed.

Lemma split_at_opened pre post rej sevs (x y : event Conn) :
  pre ++ x :: post = rej ++ y :: sevs ->
  is_opened x = true -> is_opened y = true ->
  Forall (fun ev => is_rejected ev = true) rej ->
  calls is_opened sevs = 0 ->
  pre = rej /\ x = y /\ post = sevs.
Proof.
  intros Heq Hx Hy Hrej Hs. revert pre Heq.
  induction Hrej as [|a rej Ha _ IH]; intros pre Heq.
  - destruct pre as [|b pre]; simplify_eq/=; [done|].
    assert (is_opened x = false); [|congruence].
    eapply calls_zero_not_in; [exact Hs|].
    apply elem_of_app. right. constructor.
  - destruct pre as [|b pre]; simplify_eq/=.
    + destruct (rejected_kinds _ Ha) as (_ & ? & _). congruence.
    + match goal with H : pre ++ _ = _ |- _ =>
        by destruct (IH pre H) as (-> & -> & ->) end.
Qed.
End MoreFacts.

Section MoreClaims.
Context {World Conn : Type} `{!SessionProvider World Conn}.
Implicit Types (s : St World Conn) (evs : list (event Conn)) (rd : Dict).

Lemma inspected_shape self (d : Dict) evs rd :
  inspected self d evs rd ->
  exists connects rest r,
    evs = connects ++ rest /\
    attempts (delete "commands" (delete "backup_password" d))
      (candidate_passwords d) connects r /\
    match r with
    | Opened k c =>
        session self d c (VStr (password_type k)) (fresh_result d) rest rd
    | Exhausted =>
        rest = [] /\
        rd = <["password_used" := VNone]>
               (<["output" := VStr AuthExhausted]> (fresh_result d))
    | Aborted k e =>
        rest = [] /\
        rd = <["password_used" := VNone]>
               (<["output" := VStr (connect_failure e)]> (fresh_result d))
    end.
Proof.
  destruct 1 as [evs Hat|evs k e Hat|evs k c sevs rd Hat Hses].
  - exists evs, [], Exhausted. by rewrite app_nil_r.
  - exists evs, [], (Aborted k e). by rewrite app_nil_r.
  - by exists evs, sevs, (Opened k c).
Qed.

Lemma inspected_connect_lookup self (d : Dict) evs rd k kw r :
  inspected self d evs rd ->
  evs !! k = Some (EvConnectHandler kw r) ->
  exists pw, candidate_passwords d !! k = Some pw /\ kw = connect_kwargs d pw.
Proof.
  intros Hins Hk.
  destruct (inspected_shape _ _ _ _ Hins) as (connects & rest & r0 & -> & Hat & Hr).
  destruct (decide (k < length connects)) as [Hlt|Hge].
  - rewrite lookup_app_l in Hk by done.
    exact (attempts_kwargs _ _ _ _ Hat _ _ _ Hk).
  - exfalso. rewrite lookup_app_r in Hk by lia.
    apply list_elem_of_lookup_2 in Hk.
    destruct r0 as [|k0 c|k0 e]; try (destruct Hr as (-> & _); by inversion Hk).
    destruct (session_calls _ _ _ _ _ _ _ Hr) as (Hcon & _).
    by pose proof (calls_zero_not_in is_connect _ _ Hcon Hk).
Qed.

(** ConnectHandler never receives the backup password or the command list,
    and receives every other field of the descriptor as it is. *)
Theorem connect_arguments_are_clean self (device : nat) s evs rd kw r :
  device < length (heap s) ->
  observe (inspect_device self device) s = Some (evs, rd) ->
  EvConnectHandler kw r ∈ evs ->
  kw !! "backup_password" = None /\
  kw !! "commands" = None /\
  (exists pw, pw ∈ candidate_passwords (heap s !!! device) /\
              kw !! "password" = Some pw) /\
  (forall key, key <> "password" -> key <> "backup_password" ->
     key <> "commands" -> kw !! key = (heap s !!! device) !! key).
Proof.
  intros Hdev Hobs Hin.
  destruct (observe_inspect _ _ _ _ _ Hdev Hobs) as (Hins & _).
  apply list_elem_of_lookup_1 in Hin as (k & Hk).
  destruct (inspected_connect_lookup _ _ _ _ _ _ _ Hins Hk) as (pw & Hpw & ->).
  unfold connect_kwargs. repeat split.
  - by simplify_map_eq.
  - by simplify_map_eq.
  - exists pw. split; [by eapply list_elem_of_lookup_2|by simplify_map_eq].
  - intros key H1 H2 H3. by simplify_map_eq.
Qed.

(** The candidates are tried in order, one call each: the k-th provider
    call that is a ConnectHandler call carries the k-th candidate, and
    there are at most two such calls. *)
Theorem candidates_tried_in_order self (device : nat) s evs rd :
  device < length (heap s) ->
  observe (inspect_device self device) s = Some (evs, rd) ->
  (forall k kw r, evs !! k = Some (EvConnectHandler kw r) ->
     exists pw, candidate_passwords (heap s !!! device) !! k = Some pw /\
                kw = connect_kwargs (heap s !!! device) pw) /\
  1 <= calls is_connect evs <= length (candidate_passwords (heap s !!! device)) /\
  length (candidate_passwords (heap s !!! device)) <= 2.
Proof.
  intros Hdev Hobs.
  destruct (observe_inspect _ _ _ _ _ Hdev Hobs) as (Hins & evs' & Hfirst).
  split; [|split].
  - intros k kw r Hk. by eapply inspected_connect_lookup.
  - split.
    { subst evs. rewrite calls_cons. cbn. lia. }
    destruct (inspected_shape _ _ _ _ Hins) as (connects & rest & r0 & -> & Hat & Hr).
    destruct (attempts_calls _ _ _ _ Hat) as (Hc & _ & _ & _ & _ & Hle).
    rewrite calls_app, Hc.
    destruct r0 as [|k0 c|k0 e];
      try (destruct Hr as (-> & _); rewrite calls_nil; lia).
    destruct (session_calls _ _ _ _ _ _ _ Hr) as (-> & _). lia.
  - unfold candidate_passwords.
    destruct (_ !! "backup_password") as [v|]; [destruct (py_truthy v)|]; cbn; lia.
Qed.

(** The rank recorded is the rank of the candidate that opened the session:
    the primary label when the first call opened it, the backup label when
    the second did. The calls before it were all turned down. *)
Theorem rank_is_the_candidate_that_opened self (device : nat) s evs rd
    pre kw (c : Conn) post :
  device < length (heap s) ->
  observe (inspect_device self device) s = Some (evs, rd) ->
  evs = pre ++ EvConnectHandler kw (inl c) :: post ->
  rd !! "password_used" = Some (VStr (password_type (length pre))) /\
  Forall (fun ev => is_rejected ev = true) pre /\
  length pre <= 1.
Proof.
  intros Hdev Hobs Hev.
  destruct (observe_inspect _ _ _ _ _ Hdev Hobs) as (Hins & _).
  destruct (inspected_shape _ _ _ _ Hins) as (connects & rest & r0 & Heq & Hat & Hr).
  destruct (attempts_shape _ _ _ _ Hat) as (rej & -> & Hrej & Hlen & Hle & Hk).
  assert (Hcand : length (candidate_passwords (heap s !!! device)) <= 2).
  { unfold candidate_passwords.
    destruct (_ !! "backup_password") as [v|]; [destruct (py_truthy v)|]; cbn; lia. }
  rewrite Hev in Heq. clear Hev.
  assert (Hin : EvConnectHandler kw (inl c) ∈ pre ++ EvConnectHandler kw (inl c) :: post).
  { apply elem_of_app. right. constructor. }
  destruct (calls_rejected _ Hrej) as (_ & Hop & _).
  destruct r0 as [|k0 c0|k0 e]; cbn [closing attempted] in *.
  - exfalso. destruct Hr as (-> & _). rewrite !app_nil_r in Heq.
    rewrite Heq in Hin.
    by pose proof (calls_zero_not_in is_opened _ _ Hop Hin).
  - rewrite <- app_assoc in Heq. cbn [app] in Heq.
    destruct (session_calls _ _ _ _ _ _ _ Hr) as (_ & Hop' & _).
    destruct (split_at_opened _ _ _ _ _ _ Heq eq_refl eq_refl Hrej Hop')
      as (-> & _ & _).
    destruct (session_result _ _ _ _ _ _ _ Hr) as (Hpu & _).
    rewrite Hlen. repeat split; try done. lia.
  - exfalso. destruct Hr as (-> & _). rewrite app_nil_r in Heq.
    rewrite Heq in Hin.
    apply elem_of_app in Hin as [Hin|Hin].
    + by pose proof (calls_zero_not_in is_opened _ _ Hop Hin).
    + apply elem_of_cons in Hin as [[=]|Hin]. inversion Hin.
Qed.

Lemma session_opened_rank self (d : Dict) evs rd :
  inspected self d evs rd ->
  1 <= calls is_opened evs ->
  rd !! "password_used" = Some (last_attempted_rank evs) /\
  calls is_disconnect evs = 1.
Proof.
  intros Hins Hop.
  destruct (inspected_shape _ _ _ _ Hins) as (connects & rest & r0 & -> & Hat & Hr).
  destruct (attempts_calls _ _ _ _ Hat) as (Hc & Ho & _ & Hd & Hlen & _).
  destruct r0 as [|k0 c|k0 e].
  - destruct Hr as (-> & _). rewrite calls_app, Ho, calls_nil in Hop. lia.
  - destruct (session_calls _ _ _ _ _ _ _ Hr) as (Hc' & _ & Hd' & _).
    destruct (session_result _ _ _ _ _ _ _ Hr) as (Hpu & _).
    unfold last_attempted_rank.
    rewrite !calls_app, Hc, Hc', Hd, Hd', Hlen, Nat.add_0_r. done.
  - destruct Hr as (-> & _). rewrite calls_app, Ho, calls_nil in Hop. lia.
Qed.

Lemma inspected_session_part self (d : Dict) evs rd (ev : event Conn) :
  inspected self d evs rd ->
  ev ∈ evs -> is_connect ev = false ->
  exists connects sevs k c,
    evs = connects ++ sevs /\ ev ∈ sevs /\
    attempts (delete "commands" (delete "backup_password" d))
      (candidate_passwords d) connects (Opened k c) /\
    session self d c (VStr (password_type k)) (fresh_result d) sevs rd.
Proof.
  intros Hins Hin Hnc.
  destruct (inspected_shape _ _ _ _ Hins) as (connects & rest & r0 & -> & Hat & Hr).
  apply elem_of_app in Hin as [Hin|Hin].
  { pose proof (attempts_connects _ _ _ _ Hat) as Hall.
    eapply Forall_forall in Hall; [|exact Hin]. congruence. }
  destruct r0 as [|k0 c|k0 e]; try (destruct Hr as (-> & _); by inversion Hin).
  by exists connects, rest, k0, c.
Qed.

(** When find_prompt raises, the result is failed with the text of the
    exception, the host name stays the descriptor's address and the rank of
    the credential that opened the session is still recorded; no command is
    sent and the session is closed. *)
Theorem prompt_failure_is_reported self (device : nat) s evs rd (c : Conn) e :
  device < length (heap s) ->
  observe (inspect_device self device) s = Some (evs, rd) ->
  EvFindPrompt c (inr e) ∈ evs ->
  rd !! "status" = Some (VStr "failed") /\
  rd !! "output" = Some (VStr ("执行命令时发生错误: " +:+ exn_str e)) /\
  rd !! "hostname" = Some (default VNone ((heap s !!! device) !! "host")) /\
  rd !! "password_used" = Some (last_attempted_rank evs) /\
  last_attempted_rank evs <> VNone /\
  calls is_send evs = 0 /\
  calls is_disconnect evs = 1.
Proof.
  intros Hdev Hobs Hin.
  destruct (observe_inspect _ _ _ _ _ Hdev Hobs) as (Hins & evs' & Hfirst).
  destruct (inspected_session_part _ _ _ _ _ Hins Hin eq_refl)
    as (connects & sevs & k & c0 & Heq & Hin' & Hat & Hses).
  assert (Hop : 1 <= calls is_opened evs).
  { destruct (attempts_calls _ _ _ _ Hat) as (_ & Ho & _).
    rewrite Heq, calls_app, Ho. lia. }
  destruct (session_opened_rank _ _ _ _ Hins Hop) as (Hrank & Hdis).
  assert (Hnn : last_attempted_rank evs <> VNone).
  { unfold last_attempted_rank. rewrite Hfirst, calls_cons. done. }
  assert (Hsend : calls is_send evs = calls is_send sevs).
  { destruct (attempts_calls _ _ _ _ Hat) as (_ & _ & Hs & _).
    by rewrite Heq, calls_app, Hs. }
  rewrite Hsend. clear Hsend.
  destruct Hses as [e0 closed|prompt e0 closed Hres|prompt cmds sends closed Hres Hs'].
  - apply elem_of_cons in Hin' as [[= -> ->]|Hin'].
    2:{ apply elem_of_cons in Hin' as [[=]|Hin']. inversion Hin'. }
    repeat split; try done; by simplify_map_eq.
  - exfalso. apply elem_of_cons in Hin' as [[=]|Hin'].
    apply elem_of_cons in Hin' as [[=]|Hin']. inversion Hin'.
  - exfalso. apply elem_of_cons in Hin' as [[=]|Hin'].
    destruct (sends_shape _ _ _ Hs') as (_ & _ & _ & _ & _ & Hnf & _).
    apply elem_of_app in Hin' as [Hin'|Hin']; [by apply Hnf in Hin'|].
    apply elem_of_cons in Hin' as [[=]|Hin']. inversion Hin'.
Qed.

(** When the prompt was read but the commands cannot be resolved or
    iterated, the exception is caught once: the result is failed with its
    text, it keeps the host name taken from the prompt, nothing is sent and
    the session is closed. *)
Theorem resolution_failure_is_reported self (device : nat) s evs rd
    (c : Conn) prompt e :
  device < length (heap s) ->
  observe (inspect_device self device) s = Some (evs, rd) ->
  EvFindPrompt c (inl prompt) ∈ evs ->
  resolved self (heap s !!! device) = inr e ->
  rd !! "status" = Some (VStr "failed") /\
  rd !! "output" = Some (VStr ("执行命令时发生错误: " +:+ exn_str e)) /\
  rd !! "hostname" = Some (VStr (rstrip prompt "#>$ ")) /\
  rd !! "password_used" = Some (last_attempted_rank evs) /\
  calls is_send evs = 0 /\
  calls is_disconnect evs = 1.
Proof.
  intros Hdev Hobs Hin Hres.
  destruct (observe_inspect _ _ _ _ _ Hdev Hobs) as (Hins & evs' & Hfirst).
  destruct (inspected_session_part _ _ _ _ _ Hins Hin eq_refl)
    as (connects & sevs & k & c0 & Heq & Hin' & Hat & Hses).
  assert (Hop : 1 <= calls is_opened evs).
  { destruct (attempts_calls _ _ _ _ Hat) as (_ & Ho & _).
    rewrite Heq, calls_app, Ho. lia. }
  destruct (session_opened_rank _ _ _ _ Hins Hop) as (Hrank & Hdis).
  assert (Hsend : calls is_send evs = calls is_send sevs).
  { destruct (attempts_calls _ _ _ _ Hat) as (_ & _ & Hs & _).
    by rewrite Heq, calls_app, Hs. }
  rewrite Hsend. clear Hsend.
  destruct Hses as [e0 closed|prompt0 e0 closed Hres0|prompt0 cmds sends closed Hres0 Hs'].
  - exfalso. apply elem_of_cons in Hin' as [[=]|Hin'].
    apply elem_of_cons in Hin' as [[=]|Hin']. inversion Hin'.
  - apply elem_of_cons in Hin' as [[= -> ->]|Hin'].
    2:{ apply elem_of_cons in Hin' as [[=]|Hin']. inversion Hin'. }
    assert (e0 = e) as -> by congruence.
    repeat split; try done; by simplify_map_eq.
  - congruence.
Qed.

(** The order of the provider calls of one inspection: the ConnectHandler
    calls come first; if a session was opened by the last of them, the
    prompt is read once, then the commands are sent on that session, and
    disconnect on that session is the last call. *)
Theorem calls_are_in_order self (device : nat) s evs rd :
  device < length (heap s) ->
  observe (inspect_device self device) s = Some (evs, rd) ->
  exists connects rest,
    evs = connects ++ rest /\
    Forall (fun ev => is_connect ev = true) connects /\
    (rest = [] \/
     exists kw c p sends closed,
       last connects = Some (EvConnectHandler kw (inl c)) /\
       rest = EvFindPrompt c p :: sends ++ [EvDisconnect c closed] /\
       Forall (fun ev => exists cmd r, ev = EvSendCommandTiming c cmd r) sends).
Proof.
  intros Hdev Hobs.
  destruct (observe_inspect _ _ _ _ _ Hdev Hobs) as (Hins & _).
  destruct (inspected_shape _ _ _ _ Hins) as (connects & rest & r0 & -> & Hat & Hr).
  exists connects, rest. split; [done|]. split; [by eapply attempts_connects|].
  destruct r0 as [|k0 c|k0 e]; try (destruct Hr as (-> & _); by left).
  right.
  destruct (attempts_shape _ _ _ _ Hat) as (rej & -> & _).
  cbn [closing]. eexists _, c. rewrite last_snoc.
  destruct Hr as [e0 closed|prompt e0 closed Hres|prompt cmds sends closed Hres Hs].
  - by exists (inr e0), [], closed.
  - by exists (inl prompt), [], closed.
  - exists (inl prompt), sends, closed. repeat split.
    clear -Hs. induction Hs as [|cmd ev cmds sends [r ->] _ IH]; constructor; eauto.
Qed.

(** The result always has the six keys it was created with; its status is
    one of the two words, its output is a string and the rank is [None] or
    one of the two labels. *)
Theorem result_is_well_formed self (device : nat) s evs rd :
  device < length (heap s) ->
  observe (inspect_device self device) s = Some (evs, rd) ->
  dom rd = {["hostname"; "ip_address"; "device_type"; "status"; "output";
             "password_used"]} /\
  (rd !! "status" = Some (VStr "failed") \/
   rd !! "status" = Some (VStr "success")) /\
  (exists text, rd !! "output" = Some (VStr text)) /\
  (rd !! "password_used" = Some VNone \/
   rd !! "password_used" = Some (VStr "主密码") \/
   rd !! "password_used" = Some (VStr "备用密码")).
Proof.
  intros Hdev Hobs.
  destruct (observe_inspect _ _ _ _ _ Hdev Hobs) as (Hins & _).
  assert (Hdom : dom (fresh_result (heap s !!! device)) =
    {["hostname"; "ip_address"; "device_type"; "status"; "output";
      "password_used"]}).
  { unfold fresh_result. cbn [list_to_map foldr fst snd].
    rewrite !dom_insert_L, dom_empty_L. set_solver. }
  assert (Hrank : forall k, VStr (password_type k) = VStr "主密码" \/
                            VStr (password_type k) = VStr "备用密码").
  { intros [|k]; [by left|by right]. }
  destruct (inspected_shape _ _ _ _ Hins) as (connects & rest & r0 & -> & Hat & Hr).
  destruct r0 as [|k0 c|k0 e].
  - destruct Hr as (-> & ->). rewrite !dom_insert_L, Hdom.
    split; [set_solver|]. split; [left; by simplify_map_eq|].
    split; [eexists; by simplify_map_eq|]. left. by simplify_map_eq.
  - destruct (Hrank k0) as [Hk|Hk];
      destruct Hr as [e0 closed|prompt e0 closed Hres|prompt cmds sends closed Hres Hs];
      rewrite !dom_insert_L, Hdom, Hk;
      (split; [set_solver|]);
      (split; [(left; by simplify_map_eq) || (right; by simplify_map_eq)|]);
      (split; [eexists; by simplify_map_eq|]);
      right; ((left; by simplify_map_eq) || (right; by simplify_map_eq)).
  - destruct Hr as (-> & ->). rewrite !dom_insert_L, Hdom.
    split; [set_solver|]. split; [left; by simplify_map_eq|].
    split; [eexists; by simplify_map_eq|]. left. by simplify_map_eq.
Qed.

Lemma observed_commands self (device : nat) s evs rd (c : Conn) prompt cmds :
  device < length (heap s) ->
  observe (inspect_device self device) s = Some (evs, rd) ->
  EvFindPrompt c (inl prompt) ∈ evs ->
  resolved self (heap s !!! device) = inl cmds ->
  sent_commands evs = cmds /\
  rd !! "status" = Some (VStr "success") /\
  rd !! "output" = Some (VStr (transcript evs)) /\
  rd !! "hostname" = Some (VStr (rstrip prompt "#>$ ")).
Proof.
  intros Hdev Hobs Hin Hres.
  destruct (observe_inspect _ _ _ _ _ Hdev Hobs) as (Hins & _).
  destruct (inspected_session_part _ _ _ _ _ Hins Hin eq_refl)
    as (connects & sevs & k & c0 & -> & Hin' & Hat & Hses).
  destruct (connects_silent _ (attempts_connects _ _ _ _ Hat))
    as (Hsent & Htr & _).
  destruct (session_commands _ _ _ _ _ _ _ Hses) as (Hyes & _).
  { by simplify_map_eq. }
  destruct (session_hostname _ _ _ _ _ _ _ Hses) as (Hhost & _).
  destruct (Hyes _ _ _ Hin' Hres) as (H1 & H2 & H3).
  rewrite sent_commands_app, transcript_app, Hsent, Htr.
  change ("" +:+ transcript sevs) with (transcript sevs). cbn [app].
  repeat split; try done. by eapply Hhost.
Qed.

Lemma sent_nothing_transcript evs :
  sent_commands evs = [] -> transcript evs = "" /\ calls is_send evs = 0.
Proof.
  induction evs as [|[] evs IH]; intros Hs; try done;
    rewrite calls_cons; cbn in *; by apply IH.
Qed.

(** An override given as one string instead of a list is iterated: each of
    its characters is sent as a command of its own (stated for ASCII text,
    where a byte is a character). *)
Theorem string_override_is_sent_by_character self (device : nat) s evs rd
    (c : Conn) prompt text :
  device < length (heap s) ->
  observe (inspect_device self device) s = Some (evs, rd) ->
  (heap s !!! device) !! "commands" = Some (VStr text) ->
  text <> "" ->
  Forall (fun ch => Ascii.nat_of_ascii ch < 128)
    (String.list_ascii_of_string text) ->
  EvFindPrompt c (inl prompt) ∈ evs ->
  sent_commands evs =
    (fun ch => String ch EmptyString) <$> String.list_ascii_of_string text /\
  rd !! "status" = Some (VStr "success").
Proof.
  intros Hdev Hobs Hov Hne _ Hin.
  assert (Hres : resolved self (heap s !!! device) =
    inl ((fun ch => String ch EmptyString) <$> String.list_ascii_of_string text)).
  { unfold resolved, _get_inspection_commands. rewrite Hov.
    rewrite bool_decide_true by eauto. cbn.
    destruct (String.eqb text "") eqn:Heq; [|done].
    by apply String.eqb_eq in Heq. }
  by destruct (observed_commands _ _ _ _ _ _ _ _ Hdev Hobs Hin Hres) as (? & ? & _).
Qed.

(** A descriptor's own non-empty list is what gets resolved, whatever its
    platform is (even an unhashable one) and whatever the external sets
    hold. *)
Theorem own_list_always_resolves (self : NetworkInspector) (device : Dict)
    cmd cmds :
  device !! "commands" = Some (VList (cmd :: cmds)) ->
  resolved self device = inl (cmd :: cmds).
Proof.
  intros Hov. unfold resolved, _get_inspection_commands. rewrite Hov.
  by rewrite bool_decide_true by eauto.
Qed.

(** Without an override of its own, a descriptor whose platform is a list
    makes the resolution raise: the platform is hashed for the lookup. *)
Theorem unhashable_platform_raises (self : NetworkInspector) (device : Dict) l :
  (forall v, device !! "commands" = Some v -> py_truthy v = false) ->
  device !! "device_type" = Some (VList l) ->
  exists e, resolved self device = inr e /\ exn_cls e = OtherException.
Proof.
  intros Hov Hdt. unfold resolved, _get_inspection_commands. rewrite Hdt.
  destruct (device !! "commands") as [v|] eqn:Hc.
  - rewrite bool_decide_true by eauto. unfold default. cbn [from_option andb id].
    rewrite (Hov v eq_refl). cbn.
    destruct (negb _); eexists; split; reflexivity.
  - rewrite bool_decide_false by (intros [? ?]; done). cbn.
    destruct (negb _); eexists; split; reflexivity.
Qed.

(** When the resolved command list is empty (an override is not used then;
    an external set can be empty), nothing is sent and the result is a
    success with an empty output. *)
Theorem no_commands_is_a_success self (device : nat) s evs rd (c : Conn) prompt :
  device < length (heap s) ->
  observe (inspect_device self device) s = Some (evs, rd) ->
  EvFindPrompt c (inl prompt) ∈ evs ->
  resolved self (heap s !!! device) = inl [] ->
  rd !! "status" = Some (VStr "success") /\
  rd !! "output" = Some (VStr "") /\
  calls is_send evs = 0.
Proof.
  intros Hdev Hobs Hin Hres.
  destruct (observed_commands _ _ _ _ _ _ _ _ Hdev Hobs Hin Hres)
    as (Hs & Hst & Hout & _).
  destruct (sent_nothing_transcript _ Hs) as (Htr & Hz).
  by rewrite Hout, Htr.
Qed.

Lemma rstrip_all (s chars : string) :
  Forall (fun ch => in_chars ch chars = true) (String.list_ascii_of_string s) ->
  rstrip s chars = "".
Proof.
  induction s as [|ch s IH]; [done|]. cbn. intros Hall.
  apply Forall_cons in Hall as (Hch & Hall). by rewrite (IH Hall), Hch.
Qed.

Lemma rstrip_unchanged (s chars : string) :
  (forall ch, last_char s = Some ch -> in_chars ch chars = false) ->
  rstrip s chars = s.
Proof.
  induction s as [|ch s IH]; [done|]. cbn [rstrip last_char]. intros Hlast.
  destruct s as [|ch' s'].
  - cbn. by rewrite (Hlast ch eq_refl).
  - rewrite IH by exact Hlast. done.
Qed.

(** Two edges of the host name: a prompt made of decoration only gives an
    empty host name (not the address), and a prompt that does not end in a
    decoration character is kept whole. *)
Theorem hostname_edges self (device : nat) s evs rd (c : Conn) prompt :
  device < length (heap s) ->
  observe (inspect_device self device) s = Some (evs, rd) ->
  EvFindPrompt c (inl prompt) ∈ evs ->
  (Forall (fun ch => in_chars ch "#>$ " = true)
     (String.list_ascii_of_string prompt) ->
   rd !! "hostname" = Some (VStr "")) /\
  ((forall ch, last_char prompt = Some ch -> in_chars ch "#>$ " = false) ->
   rd !! "hostname" = Some (VStr prompt)).
Proof.
  intros Hdev Hobs Hin.
  destruct (observe_inspect _ _ _ _ _ Hdev Hobs) as (Hins & _).
  destruct (inspected_session_part _ _ _ _ _ Hins Hin eq_refl)
    as (connects & sevs & k & c0 & -> & Hin' & Hat & Hses).
  destruct (session_hostname _ _ _ _ _ _ _ Hses) as (Hhost & _).
  rewrite (Hhost _ _ Hin'). split.
  - intros Hall. by rewrite rstrip_all.
  - intros Hlast. by rewrite rstrip_unchanged.
Qed.

Lemma calls_take_le (p : event Conn -> bool) n evs :
  calls p (take n evs) <= calls p evs.
Proof.
  rewrite <- (take_drop n evs) at 2. rewrite calls_app. lia.
Qed.

Lemma inspected_balance self (d : Dict) evs rd :
  inspected self d evs rd ->
  calls is_opened evs = calls is_disconnect evs /\
  forall n, calls is_disconnect (take n evs) <= calls is_opened (take n evs)
            <= calls is_disconnect (take n evs) + 1.
Proof.
  intros Hins.
  destruct (inspected_shape _ _ _ _ Hins) as (connects & rest & r0 & -> & Hat & Hr).
  destruct (attempts_calls _ _ _ _ Hat) as (_ & Ho & _ & Hd & _).
  assert (Hrest : calls is_opened rest = 0 /\
                  calls is_disconnect rest = calls is_opened connects /\
                  (calls is_opened connects = 0 -> rest = []) /\
                  calls is_opened connects <= 1).
  { destruct r0 as [|k0 c|k0 e];
      try (destruct Hr as (-> & _); rewrite Ho, !calls_nil;
           repeat split; try done; lia).
    destruct (session_calls _ _ _ _ _ _ _ Hr) as (_ & Ho' & Hd' & _).
    rewrite Ho. repeat split; try done; lia. }
  destruct Hrest as (Ho' & Hd' & Hnil & Hle).
  split. { rewrite !calls_app. lia. }
  intros n. rewrite take_app, !calls_app.
  pose proof (calls_take_le is_opened n connects).
  pose proof (calls_take_le is_disconnect n connects).
  pose proof (calls_take_le is_opened (n - length connects) rest).
  pose proof (calls_take_le is_disconnect (n - length connects) rest).
  destruct (decide (n <= length connects)) as [Hn|Hn].
  - replace (n - length connects) with 0 by lia. rewrite take_0, !calls_nil. lia.
  - rewrite (take_ge connects) by lia.
    destruct (decide (calls is_opened connects = 0)) as [Hz|Hz].
    + rewrite (Hnil Hz), take_nil, !calls_nil. lia.
    + lia.
Qed.

Lemma concat_balance (evss : list (list (event Conn))) :
  Forall (fun evs =>
    calls is_opened evs = calls is_disconnect evs /\
    forall n, calls is_disconnect (take n evs) <= calls is_opened (take n evs)
              <= calls is_disconnect (take n evs) + 1) evss ->
  calls is_opened (concat evss) = calls is_disconnect (concat evss) /\
  forall n, calls is_disconnect (take n (concat evss))
            <= calls is_opened (take n (concat evss))
            <= calls is_disconnect (take n (concat evss)) + 1.
Proof.
  induction 1 as [|evs evss (Hbal & Hpre) _ (IHbal & IHpre)].
  - cbn [concat]. split; [done|]. intros n. rewrite take_nil, !calls_nil. lia.
  - cbn [concat]. split. { rewrite !calls_app. lia. }
    intros n. rewrite take_app, !calls_app.
    destruct (decide (n <= length evs)) as [Hn|Hn].
    + replace (n - length evs) with 0 by lia. rewrite take_0, !calls_nil.
      specialize (Hpre n). lia.
    + rewrite (take_ge evs) by lia. specialize (IHpre (n - length evs)). lia.
Qed.

Lemma run_inspection_loop_calls self devs : forall results s,
  Forall (fun d : nat => d < length (heap s)) devs ->
  exists res s' ext evss,
    run_inspection_loop self devs results s = (inl res, s') /\
    heap s' = heap s ++ ext /\
    trace s' = trace s ++ concat evss /\
    Forall2 (fun (d : nat) evs => exists rd, inspected self (heap s !!! d) evs rd)
      devs evss.
Proof.
  induction devs as [|device devs IH]; intros results s Hvalid.
  - exists results, s, [], []. rewrite !app_nil_r. repeat split; constructor.
  - apply Forall_cons in Hvalid as (Hdev & Hvalid).
    destruct (inspect_device_spec self device s Hdev)
      as (w1 & evs & rd & cd & Hins & _ & Hrun).
    destruct (inspected_fields _ _ _ _ Hins) as (_ & _ & [hn Hhn] & [st Hst]).
    cbn [run_inspection_loop]. unfold bind at 1. rewrite Hrun.
    unfold bind at 1. unfold dict_getitem at 1. cbn [heap].
    rewrite heap_result, Hhn.
    unfold bind at 1. unfold dict_getitem at 1. cbn [heap].
    rewrite heap_result, Hst.
    destruct (IH (results ++ [length (heap s)])
                (MkSt w1 (trace s ++ evs) (heap s ++ [rd; cd])))
      as (res & s' & ext & evss & Hloop & Hheap & Htrace & Hall).
    { eapply Forall_impl; [exact Hvalid|]. cbn. intros d Hd.
      rewrite length_app. lia. }
    cbn [heap trace] in *.
    exists res, s', ([rd; cd] ++ ext), (evs :: evss).
    split; [exact Hloop|].
    split. { rewrite Hheap. by rewrite <- app_assoc. }
    split. { rewrite Htrace. cbn [concat]. by rewrite <- app_assoc. }
    constructor; [by exists rd|].
    eapply Forall2_impl_valid; [exact Hvalid|exact Hall|].
    intros d evs0 Hd. cbn beta. by rewrite (heap_old (heap s)) by done.
Qed.

(** During a whole run at most one session is open at any time, and none is
    left open at the end: after any number of provider calls, the sessions
    opened so far are the sessions closed so far, or one more. *)
Theorem one_session_at_a_time self s :
  Forall (fun d : nat => d < length (heap s)) (devices self) ->
  exists results s' evs,
    run_inspection self s = (inl results, s') /\
    trace s' = trace s ++ evs /\
    calls is_opened evs = calls is_disconnect evs /\
    forall n, calls is_disconnect (take n evs) <= calls is_opened (take n evs)
              <= calls is_disconnect (take n evs) + 1.
Proof.
  intros Hvalid.
  destruct (run_inspection_loop_calls self (devices self) [] s Hvalid)
    as (res & s' & ext & evss & Hrun & _ & Htrace & Hall).
  exists res, s', (concat evss). split; [exact Hrun|]. split; [exact Htrace|].
  apply concat_balance.
  clear -Hall. induction Hall as [|d evs ds evss [rd Hins] _ IH]; constructor; [|done].
  by eapply inspected_balance.
Qed.

(** A whole run changes no object that existed before it: every descriptor
    of the inventory is as it was loaded. *)
Theorem run_leaves_descriptors self s :
  Forall (fun d : nat => d < length (heap s)) (devices self) ->
  exists results s',
    run_inspection self s = (inl results, s') /\
    forall l : nat, l < length (heap s) -> heap s' !! l = heap s !! l.
Proof.
  intros Hvalid.
  destruct (run_inspection_loop_calls self (devices self) [] s Hvalid)
    as (res & s' & ext & evss & Hrun & Hheap & _).
  exists res, s'. split; [exact Hrun|].
  intros l Hl. rewrite Hheap. by apply lookup_app_l.
Qed.
End MoreClaims.

(** * Properties of the loaders and of [main] *)

(** A commands file given on its own decides [self.commands]: its document
    when it loads, the empty dictionary when it is missing or malformed;
    commands embedded in the devices file are never used then. *)
Theorem separate_commands_file_wins (fs : string -> read_result)
    (devices_path commands_path : string) (inspector : Loaded) :
  commands_path <> "" ->
  NetworkInspector_init fs devices_path (Some commands_path) = inl inspector ->
  commands_json inspector =
    match fs commands_path with
    | ReadOk data => data
    | _ => JObj []
    end.
Proof.
  intros Hne. unfold NetworkInspector_init, _load_commands, _load_devices.
  assert (Ht : path_truthy (Some commands_path) = true).
  { cbn. destruct (String.eqb commands_path "") eqn:E; [|done].
    by apply String.eqb_eq in E. }
  rewrite Ht. cbn [default from_option id negb].
  destruct (fs commands_path) as [data| | |e]; try done;
    destruct (fs devices_path) as [[| | | | |members]| | |e']; try done;
    try (by intros [= <-]);
    rewrite andb_false_r;
    destruct (json_in "devices" members); by intros [= <-].
Qed.

(** With no commands file, a devices file that is an object with both a
    [devices] and a [commands] member supplies both. *)
Theorem mixed_file_supplies_both (fs : string -> read_result)
    (devices_path : string) (commands_path : option string) members ds cs :
  path_truthy commands_path = false ->
  fs devices_path = ReadOk (JObj members) ->
  json_get "devices" members = Some ds ->
  json_get "commands" members = Some cs ->
  NetworkInspector_init fs devices_path commands_path =
    inl {| devices_file := devices_path; commands_file := commands_path;
           commands_json := cs; devices_json := ds |}.
Proof.
  intros Ht Hfs Hds Hcs.
  unfold NetworkInspector_init, _load_devices, json_in.
  by rewrite Ht, Hfs, Hds, Hcs.
Qed.

(** An object without a [devices] member is taken whole as the device
    list, and its [commands] member, if any, is not read. *)
Theorem object_without_devices_is_the_inventory (fs : string -> read_result)
    (devices_path : string) members :
  fs devices_path = ReadOk (JObj members) ->
  json_get "devices" members = None ->
  NetworkInspector_init fs devices_path None =
    inl {| devices_file := devices_path; commands_file := None;
           commands_json := JObj []; devices_json := JObj members |}.
Proof.
  intros Hfs Hds. unfold NetworkInspector_init, _load_devices, json_in.
  cbn [path_truthy]. by rewrite Hfs, Hds.
Qed.

(** Where no file can be read (each path is missing or malformed), [main]
    ends without inspecting anything, whatever the options are. *)
Theorem main_stops_when_nothing_loads (fs : string -> read_result)
    (args : Namespace) :
  (forall path, fs path = FileNotFoundError \/ fs path = JSONDecodeError) ->
  main fs args = inl NoDevices.
Proof.
  intros Hfs.
  assert (Hinit : forall df cf, exists cj,
    NetworkInspector_init fs df cf =
      inl {| devices_file := df; commands_file := cf;
             commands_json := cj; devices_json := JArr [] |}).
  { intros df cf. unfold NetworkInspector_init, _load_commands, _load_devices.
    destruct (path_truthy cf);
      [destruct (Hfs (default "" cf)) as [->| ->]|];
      destruct (Hfs df) as [->| ->]; by eexists. }
  unfold main.
  destruct (path_truthy (args_mixed args));
    [|destruct (path_truthy (args_devices args));
      [|destruct (path_truthy (args_config args))]];
    match goal with |- context [NetworkInspector_init fs ?df ?cf] =>
      destruct (Hinit df cf) as (cj & ->) end; reflexivity.
Qed.

(** The mixed option overrides the others: with it, [main] does the same
    whatever the positional file, the devices option and the commands
    option are. *)
Theorem mixed_option_overrides (fs : string -> read_result) (args : Namespace)
    (config' devices' commands' : option string) :
  path_truthy (args_mixed args) = true ->
  main fs args =
  main fs {| args_config := config'; args_devices := devices';
             args_commands := commands'; args_mixed := args_mixed args;
             args_output := args_output args |}.
Proof. intros Hm. unfold main. cbn. by rewrite Hm. Qed.

(** The commands option counts only together with the devices option:
    without the latter, [main] does the same whatever the former is. *)
Theorem commands_option_needs_devices_option (fs : string -> read_result)
    (args : Namespace) (commands' : option string) :
  path_truthy (args_devices args) = false ->
  main fs args =
  main fs {| args_config := args_config args; args_devices := args_devices args;
             args_commands := commands'; args_mixed := args_mixed args;
             args_output := args_output args |}.
Proof. intros Hd. unfold main. cbn. by rewrite Hd. Qed.


(** * Properties of the report *)

Section ReportFacts.
Variable repr_str : string -> string.

Lemma lines_with_cons label line report :
  lines_with label (line :: report) =
    if starts_with label line then line :: lines_with label report
    else lines_with label report.
Proof.
  unfold lines_with. rewrite filter_cons.
  destruct (starts_with label line);
    [by rewrite decide_True|by rewrite decide_False].
Qed.

Lemma lines_with_app label r1 r2 :
  lines_with label (r1 ++ r2) = lines_with label r1 ++ lines_with label r2.
Proof. unfold lines_with. apply filter_app. Qed.

Lemma lines_with_nil label : lines_with label [] = [].
Proof. reflexivity. Qed.

(** The lines of one block. *)
Lemma write_result_run (result : Dict) h dt st pu o out :
  result !! "hostname" = Some h ->
  result !! "device_type" = Some dt ->
  result !! "status" = Some st ->
  result !! "password_used" = Some pu ->
  result !! "output" = Some o ->
  write_result repr_str result out =
    (inl tt,
     out ++
     ["设备: " +:+ py_str repr_str h +:+ " (" +:+ py_str repr_str dt +:+ ")" +:+ nl] ++
     (if py_truthy (default VNone (result !! "ip_address"))
      then ["IP地址: " +:+ py_str repr_str (default VNone (result !! "ip_address")) +:+ nl]
      else []) ++
     ["状态: " +:+ py_str repr_str st +:+ nl] ++
     (if py_truthy pu then ["登录密码: " +:+ py_str repr_str pu +:+ nl]
      else if differs_from st "success" then ["登录密码: 未成功登录" +:+ nl]
      else []) ++
     ["输出:" +:+ nl +:+ py_str repr_str o +:+ nl;
      str_mul "=" 50 +:+ nl +:+ nl]).
Proof.
  intros Hh Hdt Hst Hpu Ho.
  unfold write_result, wbind, subscript, write, wret.
  rewrite Hh, Hdt, Hst, Hpu, Ho.
  destruct (result !! "ip_address") as [ip|]; cbn [default from_option id];
    [destruct (py_truthy ip)|cbn [py_truthy]];
    destruct (py_truthy pu); try destruct (differs_from st "success");
    cbn [app]; rewrite <- ?app_assoc; reflexivity.
Qed.

Ltac label_eval :=
  repeat match goal with
  | |- context [starts_with ?a ?b] =>
      let v := eval vm_compute in (starts_with a b) in
      change (starts_with a b) with v
  end; cbn iota.

Lemma write_result_lines (result : Dict) out :
  reportable result ->
  exists block,
    write_result repr_str result out = (inl tt, out ++ block) /\
    lines_with "设备: " block =
      ["设备: " +:+ py_str repr_str (default VNone (result !! "hostname"))
       +:+ " (" +:+ py_str repr_str (default VNone (result !! "device_type"))
       +:+ ")" +:+ nl] /\
    lines_with "登录密码: " block =
      (if py_truthy (default VNone (result !! "password_used"))
       then ["登录密码: "
             +:+ py_str repr_str (default VNone (result !! "password_used")) +:+ nl]
       else if differs_from (default VNone (result !! "status")) "success"
       then ["登录密码: 未成功登录" +:+ nl]
       else []).
Proof.
  intros ([h Hh] & [dt Hdt] & [st Hst] & [pu Hpu] & [o Ho]).
  eexists. split; [by apply (write_result_run _ h dt st pu o)|].
  rewrite Hh, Hdt, Hst, Hpu. cbn [default from_option id].
  split.
  - destruct (py_truthy (default VNone (result !! "ip_address")));
      destruct (py_truthy pu); try destruct (differs_from st "success");
      cbn [app]; rewrite ?lines_with_cons; label_eval; reflexivity.
  - destruct (py_truthy (default VNone (result !! "ip_address")));
      destruct (py_truthy pu); try destruct (differs_from st "success");
      cbn [app]; rewrite ?lines_with_cons; label_eval; reflexivity.
Qed.

Lemma write_results_lines (results : list Dict) : forall out,
  Forall reportable results ->
  exists blocks,
    write_results repr_str results out = (inl tt, out ++ blocks) /\
    lines_with "设备: " blocks = device_line repr_str <$> results /\
    lines_with "登录密码: " blocks = concat (login_lines repr_str <$> results).
Proof.
  induction results as [|result results IH]; intros out Hall.
  - exists []. by rewrite app_nil_r.
  - apply Forall_cons in Hall as (Hr & Hall).
    destruct (write_result_lines result out Hr) as (block & Hrun & Hdev & Hlog).
    destruct (IH (out ++ block) Hall) as (blocks & Hruns & Hdevs & Hlogs).
    exists (block ++ blocks). cbn [write_results]. unfold wbind.
    rewrite Hrun, Hruns, <- app_assoc. split; [done|].
    rewrite !lines_with_app, Hdev, Hdevs, Hlog, Hlogs. done.
Qed.

Lemma save_results_header timestamp results output_file :
  save_results repr_str timestamp results output_file =
    ((write_results repr_str results
        ["巡检时间: " +:+ timestamp +:+ nl; str_mul "=" 50 +:+ nl +:+ nl]).1,
     (output_file,
      (write_results repr_str results
        ["巡检时间: " +:+ timestamp +:+ nl; str_mul "=" 50 +:+ nl +:+ nl]).2)).
Proof. reflexivity. Qed.

Lemma save_results_lines timestamp (results : list Dict) output_file :
  Forall reportable results ->
  exists report,
    save_results repr_str timestamp results output_file =
      (inl tt, (output_file, report)) /\
    lines_with "设备: " report = device_line repr_str <$> results /\
    lines_with "登录密码: " report = concat (login_lines repr_str <$> results).
Proof.
  intros Hall. rewrite save_results_header.
  destruct (write_results_lines results
              ["巡检时间: " +:+ timestamp +:+ nl; str_mul "=" 50 +:+ nl +:+ nl] Hall)
    as (blocks & -> & Hdev & Hlog).
  eexists. split; [reflexivity|]. cbn [snd app].
  rewrite !lines_with_cons. label_eval. done.
Qed.

(** For results that have the five subscripted keys ([ip_address] may be
    missing), [save_results] ends normally and the report has, in the order
    of the results, one device line per result and the login lines of each:
    the rank when there is one, the not-logged-in line when there is none
    and the status is not a success, no line otherwise. *)
Theorem report_has_a_block_per_result timestamp (results : list Dict) output_file :
  Forall reportable results ->
  exists report,
    save_results repr_str timestamp results output_file =
      (inl tt, (output_file, report)) /\
    lines_with "设备: " report = device_line repr_str <$> results /\
    lines_with "登录密码: " report = concat (login_lines repr_str <$> results).
Proof.
  intros Hall. rewrite save_results_header.
  destruct (write_results_lines results
              ["巡检时间: " +:+ timestamp +:+ nl; str_mul "=" 50 +:+ nl +:+ nl] Hall)
    as (blocks & -> & Hdev & Hlog).
  eexists. split; [reflexivity|]. cbn [snd app].
  rewrite !lines_with_cons. label_eval. done.
Qed.

End ReportFacts.

Section Pipeline.
Context {World Conn : Type} `{!SessionProvider World Conn}.
Variable repr_str : string -> string.
Implicit Types (s : St World Conn) (evs : list (event Conn)) (rd : Dict).

Lemma inspected_report self (d : Dict) evs rd :
  inspected self d evs rd ->
  reportable rd /\
  login_lines repr_str rd =
    ["登录密码: " +:+
     (if decide (calls is_opened evs = 0) then "未成功登录"
      else password_type (calls is_connect evs - 1)) +:+ nl].
Proof.
  intros Hins.
  destruct (inspected_fields _ _ _ _ Hins) as (_ & Hdt & Hhn & Hst).
  destruct (inspected_shape _ _ _ _ Hins) as (connects & rest & r0 & -> & Hat & Hr).
  destruct (attempts_calls _ _ _ _ Hat) as (Hc & Ho & _ & _ & Hlen & _).
  unfold reportable, login_lines. rewrite !calls_app, Hc, Ho, Hlen.
  destruct r0 as [|k0 c|k0 e].
  - destruct Hr as (-> & ->). rewrite !calls_nil. simplify_map_eq.
    split; [repeat split; eauto|]. reflexivity.
  - destruct (session_calls _ _ _ _ _ _ _ Hr) as (Hc' & Ho' & _).
    destruct (session_result _ _ _ _ _ _ _ Hr) as (Hpu & _).
    rewrite Hc', Ho', Hpu, Hdt.
    assert (Hout : is_Some (rd !! "output")).
    { destruct Hr; simplify_map_eq; eauto. }
    split; [repeat split; eauto|].
    replace (S k0 + 0 - 1) with k0 by lia.
    cbn [default from_option id]. by destruct k0.
  - destruct Hr as (-> & ->). rewrite !calls_nil. simplify_map_eq.
    split; [repeat split; eauto|]. reflexivity.
Qed.

(** Every result of [inspect_device] gets one login line in the report:
    the rank of the credential that opened the session, or the
    not-logged-in line when no session was opened. *)
Theorem every_inspection_gets_a_login_line self (device : nat) s evs rd
    timestamp output_file :
  device < length (heap s) ->
  observe (inspect_device self device) s = Some (evs, rd) ->
  exists report,
    save_results repr_str timestamp [rd] output_file =
      (inl tt, (output_file, report)) /\
    lines_with "登录密码: " report =
      ["登录密码: " +:+
       (if decide (calls is_opened evs = 0) then "未成功登录"
        else password_type (calls is_connect evs - 1)) +:+ nl].
Proof.
  intros Hdev Hobs.
  destruct (observe_inspect _ _ _ _ _ Hdev Hobs) as (Hins & _).
  destruct (inspected_report _ _ _ _ Hins) as (Hrep & Hlog).
  destruct (save_results_lines repr_str timestamp [rd] output_file)
    as (report & Hrun & _ & Hlines).
  { by constructor. }
  exists report. split; [exact Hrun|].
  rewrite Hlines. cbn [fmap list_fmap concat]. by rewrite app_nil_r.
Qed.

Lemma run_inspection_loop_results self devs : forall results s,
  Forall (fun d : nat => d < length (heap s)) devs ->
  exists new s' ext,
    run_inspection_loop self devs results s = (inl (results ++ new), s') /\
    heap s' = heap s ++ ext /\
    Forall (fun r : nat => length (heap s) <= r < length (heap s')) new /\
    Forall2 (fun (d r : nat) =>
               exists evs, inspected self (heap s !!! d) evs (heap s' !!! r))
      devs new.
Proof.
  induction devs as [|device devs IH]; intros results s Hvalid.
  - exists [], s, []. rewrite !app_nil_r. repeat split; constructor.
  - apply Forall_cons in Hvalid as (Hdev & Hvalid).
    destruct (inspect_device_spec self device s Hdev)
      as (w1 & evs & rd & cd & Hins & _ & Hrun).
    destruct (inspected_fields _ _ _ _ Hins) as (_ & _ & [hn Hhn] & [st Hst]).
    cbn [run_inspection_loop]. unfold bind at 1. rewrite Hrun.
    unfold bind at 1. unfold dict_getitem at 1. cbn [heap].
    rewrite heap_result, Hhn.
    unfold bind at 1. unfold dict_getitem at 1. cbn [heap].
    rewrite heap_result, Hst.
    destruct (IH (results ++ [length (heap s)])
                (MkSt w1 (trace s ++ evs) (heap s ++ [rd; cd])))
      as (new & s' & ext & Hloop & Hheap & Hnew & Hall).
    { eapply Forall_impl; [exact Hvalid|]. cbn. intros d Hd.
      rewrite length_app. lia. }
    cbn [heap trace] in *.
    exists (length (heap s) :: new), s', ([rd; cd] ++ ext).
    split. { rewrite Hloop. by rewrite <- app_assoc. }
    split. { rewrite Hheap. by rewrite <- app_assoc. }
    assert (Hlen : length (heap s') = length (heap s) + 2 + length ext).
    { rewrite Hheap, !length_app. cbn. lia. }
    split.
    { constructor; [lia|]. eapply Forall_impl; [exact Hnew|].
      cbn. intros r. rewrite length_app. cbn. lia. }
    constructor.
    + exists evs. rewrite Hheap.
      rewrite (heap_old (heap s ++ [rd; cd])) by (rewrite length_app; cbn; lia).
      by rewrite heap_result.
    + eapply Forall2_impl_valid; [exact Hvalid|exact Hall|].
      intros d r Hd. cbn beta. by rewrite (heap_old (heap s)) by done.
Qed.

(** The results of a run can always be reported: [save_results] ends
    normally on them, and the report has one device line and one login line
    for each descriptor of the inventory. *)
Theorem a_run_can_be_reported self s timestamp output_file :
  Forall (fun d : nat => d < length (heap s)) (devices self) ->
  exists results s' report,
    run_inspection self s = (inl results, s') /\
    save_results repr_str timestamp ((fun r : nat => heap s' !!! r) <$> results)
      output_file = (inl tt, (output_file, report)) /\
    length (lines_with "设备: " report) = length (devices self) /\
    length (lines_with "登录密码: " report) = length (devices self).
Proof.
  intros Hvalid.
  destruct (run_inspection_loop_results self (devices self) [] s Hvalid)
    as (new & s' & ext & Hrun & _ & _ & Hall).
  assert (Hrep : Forall reportable ((fun r : nat => heap s' !!! r) <$> new) /\
                 length (concat (login_lines repr_str <$>
                   ((fun r : nat => heap s' !!! r) <$> new))) = length new).
  { clear -Hall. induction Hall as [|d r ds rs [evs Hins] _ (IH1 & IH2)].
    - split; [constructor|done].
    - destruct (inspected_report _ _ _ _ Hins) as (Hr & Hlog).
      cbn [fmap list_fmap concat]. split; [by constructor|].
      rewrite length_app, Hlog. cbn [length]. cbn in IH2. lia. }
  destruct Hrep as (Hrep & Hlen).
  destruct (save_results_lines repr_str timestamp _ output_file Hrep)
    as (report & Hsave & Hdev & Hlog).
  exists new, s', report. split; [exact Hrun|]. split; [exact Hsave|].
  rewrite Hdev, Hlog, !length_fmap, Hlen.
  split; symmetry; by eapply Forall2_length.
Qed.
End Pipeline.

(** * The further properties on the scripted runs *)

Lemma router4_observed :
  observe (inspect_device second_inventory 0) boot2 =
    Some (router4_calls, router4_result).
Proof. vm_compute. reflexivity. Qed.

Lemma router5_observed :
  observe (inspect_device second_inventory 1) boot2 =
    Some (router5_calls, router5_result).
Proof. vm_compute. reflexivity. Qed.

Lemma router6_observed :
  observe (inspect_device second_inventory 2) boot2 =
    Some (router6_calls, router6_result).
Proof. vm_compute. reflexivity. Qed.

Lemma router7_observed :
  observe (inspect_device second_inventory 3) boot2 =
    Some (router7_calls, router7_result).
Proof. vm_compute. reflexivity. Qed.

Lemma router8_observed :
  observe (inspect_device second_inventory 4) boot2 =
    Some (router8_calls, router8_result).
Proof. vm_compute. reflexivity. Qed.

Lemma router9_observed :
  observe (inspect_device second_inventory 5) boot2 =
    Some (router9_calls, router9_result).
Proof. vm_compute. reflexivity. Qed.

Lemma connect_arguments_are_clean_witness :
  0 < length (heap boot2) /\
  observe (inspect_device second_inventory 0) boot2 =
    Some (router4_calls, router4_result) /\
  EvConnectHandler (connect_kwargs router4 (VStr "good")) (inl "r4")
    ∈ router4_calls /\
  connect_kwargs router4 (VStr "good") !! "backup_password" = None /\
  connect_kwargs router4 (VStr "good") !! "commands" = None /\
  (exists pw, pw ∈ candidate_passwords (heap boot2 !!! 0) /\
              connect_kwargs router4 (VStr "good") !! "password" = Some pw) /\
  (forall key, key <> "password" -> key <> "backup_password" ->
     key <> "commands" ->
     connect_kwargs router4 (VStr "good") !! key = (heap boot2 !!! 0) !! key).
Proof.
  assert (H1 : 0 < length (heap boot2)) by (simpl; lia).
  assert (H2 : observe (inspect_device second_inventory 0) boot2 =
                 Some (router4_calls, router4_result))
    by (vm_compute; reflexivity).
  assert (H3 : EvConnectHandler (connect_kwargs router4 (VStr "good")) (inl "r4")
                 ∈ router4_calls).
  { unfold router4_calls. apply elem_of_cons. right. apply elem_of_cons. by left. }
  exact (conj H1 (conj H2 (conj H3
    (connect_arguments_are_clean second_inventory 0 boot2 router4_calls
       router4_result _ _ H1 H2 H3)))).
Defined.

Lemma candidates_tried_in_order_witness :
  0 < length (heap boot2) /\
  observe (inspect_device second_inventory 0) boot2 =
    Some (router4_calls, router4_result) /\
  (forall k kw r, router4_calls !! k = Some (EvConnectHandler kw r) ->
     exists pw, candidate_passwords (heap boot2 !!! 0) !! k = Some pw /\
                kw = connect_kwargs (heap boot2 !!! 0) pw) /\
  1 <= calls is_connect router4_calls
    <= length (candidate_passwords (heap boot2 !!! 0)) /\
  length (candidate_passwords (heap boot2 !!! 0)) <= 2.
Proof.
  assert (H1 : 0 < length (heap boot2)) by (simpl; lia).
  assert (H2 : observe (inspect_device second_inventory 0) boot2 =
                 Some (router4_calls, router4_result))
    by (vm_compute; reflexivity).
  exact (conj H1 (conj H2
    (candidates_tried_in_order second_inventory 0 boot2 router4_calls
       router4_result H1 H2))).
Defined.

Lemma rank_is_the_candidate_that_opened_witness :
  0 < length (heap boot2) /\
  observe (inspect_device second_inventory 0) boot2 =
    Some (router4_calls, router4_result) /\
  router4_calls =
    [EvConnectHandler (primary_kwargs router4)
       (inr (Exn NetMikoAuthenticationException "denied"))] ++
    EvConnectHandler (connect_kwargs router4 (VStr "good")) (inl "r4") ::
    [EvFindPrompt "r4" (inl "r4# ");
     EvSendCommandTiming "r4" "display version" (inl "ok display version");
     EvDisconnect "r4" (inl tt)] /\
  router4_result !! "password_used" = Some (VStr (password_type 1)) /\
  Forall (fun ev : event string => is_rejected ev = true)
    [EvConnectHandler (primary_kwargs router4)
       (inr (Exn NetMikoAuthenticationException "denied"))] /\
  1 <= 1.
Proof.
  assert (H1 : 0 < length (heap boot2)) by (simpl; lia).
  assert (H2 : observe (inspect_device second_inventory 0) boot2 =
                 Some (router4_calls, router4_result))
    by (vm_compute; reflexivity).
  assert (H3 : router4_calls =
    [EvConnectHandler (primary_kwargs router4)
       (inr (Exn NetMikoAuthenticationException "denied"))] ++
    EvConnectHandler (connect_kwargs router4 (VStr "good")) (inl "r4") ::
    [EvFindPrompt "r4" (inl "r4# ");
     EvSendCommandTiming "r4" "display version" (inl "ok display version");
     EvDisconnect "r4" (inl tt)]) by reflexivity.
  exact (conj H1 (conj H2 (conj H3
    (rank_is_the_candidate_that_opened second_inventory 0 boot2 router4_calls
       router4_result _ _ _ _ H1 H2 H3)))).
Defined.

Lemma prompt_failure_is_reported_witness :
  1 < length (heap boot2) /\
  observe (inspect_device second_inventory 1) boot2 =
    Some (router5_calls, router5_result) /\
  EvFindPrompt "mute" (inr (Exn OtherException "no prompt")) ∈ router5_calls /\
  router5_result !! "status" = Some (VStr "failed") /\
  router5_result !! "output" =
    Some (VStr ("执行命令时发生错误: " +:+ exn_str (Exn OtherException "no prompt"))) /\
  router5_result !! "hostname" =
    Some (default VNone ((heap boot2 !!! 1) !! "host")) /\
  router5_result !! "password_used" = Some (last_attempted_rank router5_calls) /\
  last_attempted_rank router5_calls <> VNone /\
  calls is_send router5_calls = 0 /\
  calls is_disconnect router5_calls = 1.
Proof.
  assert (H1 : 1 < length (heap boot2)) by (simpl; lia).
  assert (H2 : observe (inspect_device second_inventory 1) boot2 =
                 Some (router5_calls, router5_result))
    by (vm_compute; reflexivity).
  assert (H3 : EvFindPrompt "mute" (inr (Exn OtherException "no prompt"))
                 ∈ router5_calls).
  { unfold router5_calls. apply elem_of_cons. right. apply elem_of_cons. by left. }
  exact (conj H1 (conj H2 (conj H3
    (prompt_failure_is_reported second_inventory 1 boot2 router5_calls
       router5_result _ _ H1 H2 H3)))).
Defined.

Lemma resolution_failure_is_reported_witness :
  2 < length (heap boot2) /\
  observe (inspect_device second_inventory 2) boot2 =
    Some (router6_calls, router6_result) /\
  EvFindPrompt "r6" (inl "r6# ") ∈ router6_calls /\
  resolved second_inventory (heap boot2 !!! 2) =
    inr (TypeError "unhashable type: 'list'") /\
  router6_result !! "status" = Some (VStr "failed") /\
  router6_result !! "output" =
    Some (VStr ("执行命令时发生错误: "
                +:+ exn_str (TypeError "unhashable type: 'list'"))) /\
  router6_result !! "hostname" = Some (VStr (rstrip "r6# " "#>$ ")) /\
  router6_result !! "password_used" = Some (last_attempted_rank router6_calls) /\
  calls is_send router6_calls = 0 /\
  calls is_disconnect router6_calls = 1.
Proof.
  assert (H1 : 2 < length (heap boot2)) by (simpl; lia).
  assert (H2 : observe (inspect_device second_inventory 2) boot2 =
                 Some (router6_calls, router6_result))
    by (vm_compute; reflexivity).
  assert (H3 : EvFindPrompt "r6" (inl "r6# ") ∈ router6_calls).
  { unfold router6_calls. apply elem_of_cons. right. apply elem_of_cons. by left. }
  assert (H4 : resolved second_inventory (heap boot2 !!! 2) =
                 inr (TypeError "unhashable type: 'list'"))
    by (vm_compute; reflexivity).
  exact (conj H1 (conj H2 (conj H3 (conj H4
    (resolution_failure_is_reported second_inventory 2 boot2 router6_calls
       router6_result _ _ _ H1 H2 H3 H4))))).
Defined.

Lemma calls_are_in_order_witness :
  0 < length (heap boot2) /\
  observe (inspect_device second_inventory 0) boot2 =
    Some (router4_calls, router4_result) /\
  exists connects rest,
    router4_calls = connects ++ rest /\
    Forall (fun ev : event string => is_connect ev = true) connects /\
    (rest = [] \/
     exists kw c p sends closed,
       last connects = Some (EvConnectHandler kw (inl c)) /\
       rest = EvFindPrompt c p :: sends ++ [EvDisconnect c closed] /\
       Forall (fun ev => exists cmd r, ev = EvSendCommandTiming c cmd r) sends).
Proof.
  assert (H1 : 0 < length (heap boot2)) by (simpl; lia).
  assert (H2 : observe (inspect_device second_inventory 0) boot2 =
                 Some (router4_calls, router4_result))
    by (vm_compute; reflexivity).
  exact (conj H1 (conj H2
    (calls_are_in_order second_inventory 0 boot2 router4_calls router4_result
       H1 H2))).
Defined.

Lemma result_is_well_formed_witness :
  1 < length (heap boot2) /\
  observe (inspect_device second_inventory 1) boot2 =
    Some (router5_calls, router5_result) /\
  dom router5_result =
    {["hostname"; "ip_address"; "device_type"; "status"; "output";
      "password_used"]} /\
  (router5_result !! "status" = Some (VStr "failed") \/
   router5_result !! "status" = Some (VStr "success")) /\
  (exists text, router5_result !! "output" = Some (VStr text)) /\
  (router5_result !! "password_used" = Some VNone \/
   router5_result !! "password_used" = Some (VStr "主密码") \/
   router5_result !! "password_used" = Some (VStr "备用密码")).
Proof.
  assert (H1 : 1 < length (heap boot2)) by (simpl; lia).
  assert (H2 : observe (inspect_device second_inventory 1) boot2 =
                 Some (router5_calls, router5_result))
    by (vm_compute; reflexivity).
  exact (conj H1 (conj H2
    (result_is_well_formed second_inventory 1 boot2 router5_calls
       router5_result H1 H2))).
Defined.

Lemma string_override_is_sent_by_character_witness :
  3 < length (heap boot2) /\
  observe (inspect_device second_inventory 3) boot2 =
    Some (router7_calls, router7_result) /\
  (heap boot2 !!! 3) !! "commands" = Some (VStr "ab") /\
  "ab" <> "" /\
  Forall (fun ch => Ascii.nat_of_ascii ch < 128)
    (String.list_ascii_of_string "ab") /\
  EvFindPrompt "r7" (inl "r7# ") ∈ router7_calls /\
  sent_commands router7_calls =
    (fun ch => String ch EmptyString) <$> String.list_ascii_of_string "ab" /\
  router7_result !! "status" = Some (VStr "success").
Proof.
  assert (H1 : 3 < length (heap boot2)) by (simpl; lia).
  assert (H2 : observe (inspect_device second_inventory 3) boot2 =
                 Some (router7_calls, router7_result))
    by (vm_compute; reflexivity).
  assert (H3 : (heap boot2 !!! 3) !! "commands" = Some (VStr "ab"))
    by (vm_compute; reflexivity).
  assert (H4 : "ab" <> "") by discriminate.
  assert (H5 : Forall (fun ch => Ascii.nat_of_ascii ch < 128)
                 (String.list_ascii_of_string "ab")).
  { repeat constructor; vm_compute; lia. }
  assert (H6 : EvFindPrompt "r7" (inl "r7# ") ∈ router7_calls).
  { unfold router7_calls. apply elem_of_cons. right. apply elem_of_cons. by left. }
  exact (conj H1 (conj H2 (conj H3 (conj H4 (conj H5 (conj H6
    (string_override_is_sent_by_character second_inventory 3 boot2
       router7_calls router7_result _ _ _ H1 H2 H3 H4 H5 H6))))))).
Defined.

Lemma own_list_always_resolves_witness :
  overriding !! "commands" = Some (VList ("cmdA" :: [])) /\
  resolved with_commands overriding = inl ("cmdA" :: []).
Proof.
  assert (H1 : overriding !! "commands" = Some (VList ("cmdA" :: [])))
    by (vm_compute; reflexivity).
  exact (conj H1 (own_list_always_resolves with_commands overriding _ _ H1)).
Defined.

Lemma unhashable_platform_raises_witness :
  (forall v, router6 !! "commands" = Some v -> py_truthy v = false) /\
  router6 !! "device_type" = Some (VList ["cisco_ios"]) /\
  exists e, resolved second_inventory router6 = inr e /\
            exn_cls e = OtherException.
Proof.
  assert (H1 : forall v, router6 !! "commands" = Some v -> py_truthy v = false).
  { intros v Hv. vm_compute in Hv. discriminate Hv. }
  assert (H2 : router6 !! "device_type" = Some (VList ["cisco_ios"]))
    by (vm_compute; reflexivity).
  exact (conj H1 (conj H2
    (unhashable_platform_raises second_inventory router6 _ H1 H2))).
Defined.

Lemma no_commands_is_a_success_witness :
  4 < length (heap boot2) /\
  observe (inspect_device second_inventory 4) boot2 =
    Some (router8_calls, router8_result) /\
  EvFindPrompt "r8" (inl "r8# ") ∈ router8_calls /\
  resolved second_inventory (heap boot2 !!! 4) = inl [] /\
  router8_result !! "status" = Some (VStr "success") /\
  router8_result !! "output" = Some (VStr "") /\
  calls is_send router8_calls = 0.
Proof.
  assert (H1 : 4 < length (heap boot2)) by (simpl; lia).
  assert (H2 : observe (inspect_device second_inventory 4) boot2 =
                 Some (router8_calls, router8_result))
    by (vm_compute; reflexivity).
  assert (H3 : EvFindPrompt "r8" (inl "r8# ") ∈ router8_calls).
  { unfold router8_calls. apply elem_of_cons. right. apply elem_of_cons. by left. }
  assert (H4 : resolved second_inventory (heap boot2 !!! 4) = inl [])
    by (vm_compute; reflexivity).
  exact (conj H1 (conj H2 (conj H3 (conj H4
    (no_commands_is_a_success second_inventory 4 boot2 router8_calls
       router8_result _ _ H1 H2 H3 H4))))).
Defined.

Lemma hostname_edges_witness :
  5 < length (heap boot2) /\
  observe (inspect_device second_inventory 5) boot2 =
    Some (router9_calls, router9_result) /\
  EvFindPrompt "" (inl "# ") ∈ router9_calls /\
  (Forall (fun ch => in_chars ch "#>$ " = true)
     (String.list_ascii_of_string "# ") ->
   router9_result !! "hostname" = Some (VStr "")) /\
  ((forall ch, last_char "# " = Some ch -> in_chars ch "#>$ " = false) ->
   router9_result !! "hostname" = Some (VStr "# ")).
Proof.
  assert (H1 : 5 < length (heap boot2)) by (simpl; lia).
  assert (H2 : observe (inspect_device second_inventory 5) boot2 =
                 Some (router9_calls, router9_result))
    by (vm_compute; reflexivity).
  assert (H3 : EvFindPrompt "" (inl "# ") ∈ router9_calls).
  { unfold router9_calls. apply elem_of_cons. right. apply elem_of_cons. by left. }
  exact (conj H1 (conj H2 (conj H3
    (hostname_edges second_inventory 5 boot2 router9_calls router9_result
       _ _ H1 H2 H3)))).
Defined.

Lemma one_session_at_a_time_witness :
  Forall (fun d : nat => d < length (heap boot2)) (devices second_inventory) /\
  exists results s' evs,
    run_inspection second_inventory boot2 = (inl results, s') /\
    trace s' = trace boot2 ++ evs /\
    calls is_opened evs = calls is_disconnect evs /\
    forall n, calls is_disconnect (take n evs) <= calls is_opened (take n evs)
              <= calls is_disconnect (take n evs) + 1.
Proof.
  assert (H : Forall (fun d : nat => d < length (heap boot2))
                (devices second_inventory)).
  { repeat constructor; simpl; lia. }
  exact (conj H (one_session_at_a_time second_inventory boot2 H)).
Defined.

Lemma run_leaves_descriptors_witness :
  Forall (fun d : nat => d < length (heap boot2)) (devices second_inventory) /\
  exists results s',
    run_inspection second_inventory boot2 = (inl results, s') /\
    forall l : nat, l < length (heap boot2) -> heap s' !! l = heap boot2 !! l.
Proof.
  assert (H : Forall (fun d : nat => d < length (heap boot2))
                (devices second_inventory)).
  { repeat constructor; simpl; lia. }
  exact (conj H (run_leaves_descriptors second_inventory boot2 H)).
Defined.

Lemma separate_commands_file_wins_witness :
  "cmds.json" <> "" /\
  NetworkInspector_init disk "mixed.json" (Some "cmds.json") =
    inl {| devices_file := "mixed.json"; commands_file := Some "cmds.json";
           commands_json := JObj [("huawei", JArr [JStr "display clock"])];
           devices_json :=
             JArr [JObj [("host", JStr "10.0.0.1"); ("password", JStr "p1")]] |} /\
  JObj [("huawei", JArr [JStr "display clock"])] =
    match disk "cmds.json" with
    | ReadOk data => data
    | _ => JObj []
    end.
Proof.
  assert (H1 : "cmds.json" <> "") by discriminate.
  assert (H2 : NetworkInspector_init disk "mixed.json" (Some "cmds.json") =
    inl {| devices_file := "mixed.json"; commands_file := Some "cmds.json";
           commands_json := JObj [("huawei", JArr [JStr "display clock"])];
           devices_json :=
             JArr [JObj [("host", JStr "10.0.0.1"); ("password", JStr "p1")]] |})
    by (vm_compute; reflexivity).
  exact (conj H1 (conj H2
    (separate_commands_file_wins disk "mixed.json" "cmds.json" _ H1 H2))).
Defined.

Lemma mixed_file_supplies_both_witness :
  path_truthy None = false /\
  disk "mixed.json" = ReadOk (JObj mixed_document) /\
  json_get "devices" mixed_document =
    Some (JArr [JObj [("host", JStr "10.0.0.1"); ("password", JStr "p1")]]) /\
  json_get "commands" mixed_document =
    Some (JObj [("cisco_ios", JArr [JStr "show clock"])]) /\
  NetworkInspector_init disk "mixed.json" None =
    inl {| devices_file := "mixed.json"; commands_file := None;
           commands_json := JObj [("cisco_ios", JArr [JStr "show clock"])];
           devices_json :=
             JArr [JObj [("host", JStr "10.0.0.1"); ("password", JStr "p1")]] |}.
Proof.
  assert (H1 : path_truthy None = false) by reflexivity.
  assert (H2 : disk "mixed.json" = ReadOk (JObj mixed_document))
    by (vm_compute; reflexivity).
  assert (H3 : json_get "devices" mixed_document =
    Some (JArr [JObj [("host", JStr "10.0.0.1"); ("password", JStr "p1")]]))
    by (vm_compute; reflexivity).
  assert (H4 : json_get "commands" mixed_document =
    Some (JObj [("cisco_ios", JArr [JStr "show clock"])]))
    by (vm_compute; reflexivity).
  exact (conj H1 (conj H2 (conj H3 (conj H4
    (mixed_file_supplies_both disk "mixed.json" None mixed_document _ _
       H1 H2 H3 H4))))).
Defined.

Lemma object_without_devices_is_the_inventory_witness :
  disk "stray.json" = ReadOk (JObj stray_document) /\
  json_get "devices" stray_document = None /\
  NetworkInspector_init disk "stray.json" None =
    inl {| devices_file := "stray.json"; commands_file := None;
           commands_json := JObj []; devices_json := JObj stray_document |}.
Proof.
  assert (H1 : disk "stray.json" = ReadOk (JObj stray_document))
    by (vm_compute; reflexivity).
  assert (H2 : json_get "devices" stray_document = None)
    by (vm_compute; reflexivity).
  exact (conj H1 (conj H2
    (object_without_devices_is_the_inventory disk "stray.json" stray_document
       H1 H2))).
Defined.

Lemma main_stops_when_nothing_loads_witness :
  (forall path, empty_disk path = FileNotFoundError \/
                empty_disk path = JSONDecodeError) /\
  main empty_disk mixed_only = inl NoDevices.
Proof.
  assert (H1 : forall path, empty_disk path = FileNotFoundError \/
                            empty_disk path = JSONDecodeError).
  { intros path. left. reflexivity. }
  exact (conj H1 (main_stops_when_nothing_loads empty_disk mixed_only H1)).
Defined.

Lemma mixed_option_overrides_witness :
  path_truthy (args_mixed mixed_only) = true /\
  main disk mixed_only =
  main disk {| args_config := None; args_devices := None;
               args_commands := None; args_mixed := args_mixed mixed_only;
               args_output := args_output mixed_only |}.
Proof.
  assert (H1 : path_truthy (args_mixed mixed_only) = true)
    by (vm_compute; reflexivity).
  exact (conj H1 (mixed_option_overrides disk mixed_only None None None H1)).
Defined.

Lemma commands_option_needs_devices_option_witness :
  path_truthy (args_devices positional_only) = false /\
  main disk positional_only =
  main disk {| args_config := args_config positional_only;
               args_devices := args_devices positional_only;
               args_commands := None;
               args_mixed := args_mixed positional_only;
               args_output := args_output positional_only |}.
Proof.
  assert (H1 : path_truthy (args_devices positional_only) = false)
    by reflexivity.
  exact (conj H1
    (commands_option_needs_devices_option disk positional_only None H1)).
Defined.

Lemma report_has_a_block_per_result_witness :
  Forall reportable [router1_result; router2_result] /\
  exists report,
    save_results plain_repr "2024-01-01 00:00:00"
      [router1_result; router2_result] "report.txt" =
      (inl tt, ("report.txt", report)) /\
    lines_with "设备: " report =
      device_line plain_repr <$> [router1_result; router2_result] /\
    lines_with "登录密码: " report =
      concat (login_lines plain_repr <$> [router1_result; router2_result]).
Proof.
  assert (H1 : Forall reportable [router1_result; router2_result]).
  { repeat constructor; vm_compute; eauto. }
  exact (conj H1
    (report_has_a_block_per_result plain_repr "2024-01-01 00:00:00"
       [router1_result; router2_result] "report.txt" H1)).
Defined.


Lemma every_inspection_gets_a_login_line_witness :
  0 < length (heap boot2) /\
  observe (inspect_device second_inventory 0) boot2 =
    Some (router4_calls, router4_result) /\
  exists report,
    save_results plain_repr "2024-01-01 00:00:00" [router4_result] "report.txt" =
      (inl tt, ("report.txt", report)) /\
    lines_with "登录密码: " report =
      ["登录密码: " +:+
       (if decide (calls is_opened router4_calls = 0) then "未成功登录"
        else password_type (calls is_connect router4_calls - 1)) +:+ nl].
Proof.
  assert (H1 : 0 < length (heap boot2)) by (simpl; lia).
  assert (H2 : observe (inspect_device second_inventory 0) boot2 =
                 Some (router4_calls, router4_result))
    by (vm_compute; reflexivity).
  exact (conj H1 (conj H2
    (every_inspection_gets_a_login_line plain_repr second_inventory 0 boot2
       router4_calls router4_result "2024-01-01 00:00:00" "report.txt" H1 H2))).
Defined.

Lemma a_run_can_be_reported_witness :
  Forall (fun d : nat => d < length (heap boot2)) (devices second_inventory) /\
  exists results s' report,
    run_inspection second_inventory boot2 = (inl results, s') /\
    save_results plain_repr "2024-01-01 00:00:00"
      ((fun r : nat => heap s' !!! r) <$> results) "report.txt" =
      (inl tt, ("report.txt", report)) /\
    length (lines_with "设备: " report) = length (devices second_inventory) /\
    length (lines_with "登录密码: " report) = length (devices second_inventory).
Proof.
  assert (H : Forall (fun d : nat => d < length (heap boot2))
                (devices second_inventory)).
  { repeat constructor; simpl; lia. }
  exact (conj H
    (a_run_can_be_reported plain_repr second_inventory boot2
       "2024-01-01 00:00:00" "report.txt" H)).
Defined.

(** The report of the first two scripted runs, written out. *)
Example report_of_two_runs :
  save_results plain_repr "2024-01-01 00:00:00"
    [router5_result; router3_result] "report.txt" =
  (inl tt, ("report.txt", [
     "巡检时间: 2024-01-01 00:00:00" +:+ nl;
     str_mul "=" 50 +:+ nl +:+ nl;
     "设备: mute (cisco_ios)" +:+ nl;
     "IP地址: mute" +:+ nl;
     "状态: failed" +:+ nl;
     "登录密码: 主密码" +:+ nl;
     "输出:" +:+ nl +:+ "执行命令时发生错误: no prompt" +:+ nl;
     str_mul "=" 50 +:+ nl +:+ nl;
     "设备: r3 (juniper)" +:+ nl;
     "IP地址: r3" +:+ nl;
     "状态: failed" +:+ nl;
     "登录密码: 未成功登录" +:+ nl;
     "输出:" +:+ nl +:+ "认证失败：所有密码尝试均失败" +:+ nl;
     str_mul "=" 50 +:+ nl +:+ nl])).
Proof. vm_compute. reflexivity. Qed.

(** A descriptor's own non-empty list is what is sent once the prompt is
    read, command for command, whatever its platform and the external sets
    are; the result is then a success. *)
Theorem own_list_is_what_is_sent {World Conn : Type}
    `{!SessionProvider World Conn} self (device : nat) (s : St World Conn)
    evs rd (c : Conn) prompt cmd cmds :
  device < length (heap s) ->
  observe (inspect_device self device) s = Some (evs, rd) ->
  (heap s !!! device) !! "commands" = Some (VList (cmd :: cmds)) ->
  EvFindPrompt c (inl prompt) ∈ evs ->
  sent_commands evs = cmd :: cmds /\
  rd !! "status" = Some (VStr "success") /\
  rd !! "output" = Some (VStr (transcript evs)).
Proof.
  intros Hdev Hobs Hov Hin.
  pose proof (own_list_always_resolves self _ _ _ Hov) as Hres.
  by destruct (observed_commands _ _ _ _ _ _ _ _ Hdev Hobs Hin Hres)
    as (? & ? & ? & _).
Qed.

Lemma own_list_is_what_is_sent_witness :
  0 < length (heap boot2) /\
  observe (inspect_device second_inventory 0) boot2 =
    Some (router4_calls, router4_result) /\
  (heap boot2 !!! 0) !! "commands" = Some (VList ("display version" :: [])) /\
  EvFindPrompt "r4" (inl "r4# ") ∈ router4_calls /\
  sent_commands router4_calls = "display version" :: [] /\
  router4_result !! "status" = Some (VStr "success") /\
  router4_result !! "output" = Some (VStr (transcript router4_calls)).
Proof.
  assert (H1 : 0 < length (heap boot2)) by (simpl; lia).
  assert (H2 : observe (inspect_device second_inventory 0) boot2 =
                 Some (router4_calls, router4_result))
    by (vm_compute; reflexivity).
  assert (H3 : (heap boot2 !!! 0) !! "commands" =
                 Some (VList ("display version" :: [])))
    by (vm_compute; reflexivity).
  assert (H4 : EvFindPrompt "r4" (inl "r4# ") ∈ router4_calls).
  { unfold router4_calls. do 2 (apply elem_of_cons; right).
    apply elem_of_cons. by left. }
  exact (conj H1 (conj H2 (conj H3 (conj H4
    (own_list_is_what_is_sent second_inventory 0 boot2 router4_calls
       router4_result _ _ _ _ H1 H2 H3 H4))))).
Defined.

Lemma NetworkInspector_init_reads (fs1 fs2 : string -> read_result)
    (devices_path : string) (commands_path : option string) :
  fs1 devices_path = fs2 devices_path ->
  (path_truthy commands_path = true ->
   fs1 (default "" commands_path) = fs2 (default "" commands_path)) ->
  NetworkInspector_init fs1 devices_path commands_path =
  NetworkInspector_init fs2 devices_path commands_path.
Proof.
  intros Hd Hc. unfold NetworkInspector_init, _load_commands, _load_devices.
  rewrite Hd. destruct (path_truthy commands_path); [|done].
  by rewrite Hc.
Qed.

(** What [main] does depends on the files of [files_read] only: the mixed
    file alone when the mixed option is given; the devices file, and the
    commands file if that option is given too, when the devices option is;
    else the positional file alone, else [devices.json].  So a commands
    option without the devices option names a file that is never opened,
    and so does every other option beside the mixed one. *)
Theorem main_reads_only_the_chosen_files (fs1 fs2 : string -> read_result)
    (args : Namespace) :
  (forall path, path ∈ files_read args -> fs1 path = fs2 path) ->
  main fs1 args = main fs2 args.
Proof.
  intros Hsame. unfold main. unfold files_read in Hsame.
  destruct (path_truthy (args_mixed args)).
  { rewrite (NetworkInspector_init_reads fs1 fs2 _ None); [done| |done].
    apply Hsame. constructor. }
  destruct (path_truthy (args_devices args)).
  { rewrite (NetworkInspector_init_reads fs1 fs2 _ (args_commands args)); [done| |].
    - apply Hsame. apply elem_of_app. right. constructor.
    - intros Ht. rewrite Ht in Hsame. apply Hsame. constructor. }
  destruct (path_truthy (args_config args)).
  { rewrite (NetworkInspector_init_reads fs1 fs2 _ None); [done| |done].
    apply Hsame. constructor. }
  rewrite (NetworkInspector_init_reads fs1 fs2 _ None); [done| |done].
  apply Hsame. constructor.
Qed.

Lemma main_reads_only_the_chosen_files_witness :
  (forall path, path ∈ files_read mixed_only -> disk path = other_disk path) /\
  main disk mixed_only = main other_disk mixed_only.
Proof.
  assert (H1 : forall path, path ∈ files_read mixed_only ->
                 disk path = other_disk path).
  { intros path Hin. apply elem_of_cons in Hin as [->|Hin]; [reflexivity|].
    inversion Hin. }
  exact (conj H1 (main_reads_only_the_chosen_files disk other_disk mixed_only H1)).
Defined.
